(** * psl_proof.utils.submission: the client protocol layer

    A shallow embedding of [src/psl_proof/utils/submission.py] and of the
    result types of [src/psl_proof/models/submission_dtos.py].

    - Python [str] values are lists of ASCII characters ([str]); on ASCII
      text the class [\d] of the [re] module is ['0'..'9'].
    - The pattern of [parse_iso_datetime] is embedded with backtracking
      combinators that try alternatives in the order of Python's matcher
      (greedy: the longest repetition first).
    - A call either returns, raises an exception or exits the process
      ([outcome]); [sys.exit] is not an exception that the [except]
      clauses of the module catch.
    - Decoded JSON is a Python value ([json]); the fields of the result
      dataclasses hold such values, whatever their annotations say.
    - [datetime.fromisoformat] is a parameter of the functions that call
      it; [IsoFormat.fromisoformat] is a model of it for examples.
    - [print] writes to standard output and raises UnicodeEncodeError when
      the encoding of standard output has no code for a character; which
      texts it can encode is a parameter ([stdout_encodes]).  The calls
      of [logging] and of [traceback.print_exc] do not raise (a logging
      handler reports its own errors, standard error escapes what it
      cannot encode) and are left out. *)

From Stdlib Require Import String.
From Stdlib Require Import List Ascii ZArith Lia Bool Arith.
From Stdlib Require Import Numbers.DecimalString Floats.SpecFloat.
Import ListNotations.
Local Open Scope list_scope.
Set Warnings "-register-all".

(** ** Python strings *)

Definition str := list ascii.

(** A literal: [S' "abc"] is the Python string ['abc']. *)
Definition S' (s : String.string) : str := String.list_ascii_of_string s.
Arguments S' s%_string.

Definition chr_Z : ascii := "Z"%char.
Definition chr_dot : ascii := "."%char.
Definition chr_plus : ascii := "+"%char.
Definition chr_minus : ascii := "-"%char.
Definition chr_zero : ascii := "0"%char.
Definition chr_nl : ascii := "010"%char.

Definition is_newline (c : ascii) : bool := Ascii.eqb c chr_nl.

(** [\d] on ASCII text. *)
Definition is_digit (c : ascii) : bool :=
  let n := nat_of_ascii c in (48 <=? n) && (n <=? 57).

(** [[+-]] *)
Definition is_sign (c : ascii) : bool :=
  Ascii.eqb c chr_plus || Ascii.eqb c chr_minus.

Fixpoint str_eqb (a b : str) : bool :=
  match a, b with
  | [], [] => true
  | x :: a', y :: b' => Ascii.eqb x y && str_eqb a' b'
  | _, _ => false
  end.

(** [s.endswith(c)] for a one-character suffix. *)
Fixpoint endswith (s : str) (c : ascii) : bool :=
  match s with
  | [] => false
  | [x] => Ascii.eqb x c
  | _ :: s' => endswith s' c
  end.

(** [s[:-1]] *)
Definition drop_last (s : str) : str := removelast s.

(** [s[:n]] *)
Definition slice_to (n : nat) (s : str) : str := firstn n s.

(** [s.ljust(width, fill)] *)
Definition ljust (width : nat) (fill : ascii) (s : str) : str :=
  s ++ repeat fill (width - length s).

(** [s.rsplit(sep, 1)]: split at the last occurrence of [sep]; a list of
    one element when [sep] does not occur. *)
Fixpoint rsplit1 (sep : ascii) (s : str) : list str :=
  match s with
  | [] => [[]]
  | c :: s' =>
      match rsplit1 sep s' with
      | [a; b] => [c :: a; b]
      | _ => if Ascii.eqb c sep then [[]; s'] else [c :: s']
      end
  end.

(** ** The pattern [^(.+\.\d+)([+-].+)$]

    Each combinator takes the continuation of the pattern and the rest of
    the subject, and returns what it consumed with the continuation's
    result.  A repetition first tries to consume one more character and
    falls back to the continuation, as the backtracking matcher does. *)

Module Re.

Section Combinators.
Context {R : Type}.

(** [.+] : one or more characters other than a line feed, greedy. *)
Fixpoint any_plus (k : str -> option R) (s : str) : option (str * R) :=
  match s with
  | [] => None
  | c :: s' =>
      if is_newline c then None
      else match any_plus k s' with
           | Some (m, r) => Some (c :: m, r)
           | None =>
               match k s' with
               | Some r => Some ([c], r)
               | None => None
               end
           end
  end.

(** [\d+] : one or more digits, greedy. *)
Fixpoint digit_plus (k : str -> option R) (s : str) : option (str * R) :=
  match s with
  | [] => None
  | c :: s' =>
      if is_digit c
      then match digit_plus k s' with
           | Some (m, r) => Some (c :: m, r)
           | None =>
               match k s' with
               | Some r => Some ([c], r)
               | None => None
               end
           end
      else None
  end.

(** [\.] *)
Definition lit_dot (k : str -> option R) (s : str) : option R :=
  match s with
  | c :: s' => if Ascii.eqb c chr_dot then k s' else None
  | [] => None
  end.

(** [[+-]] *)
Definition sign (k : str -> option R) (s : str) : option (ascii * R) :=
  match s with
  | c :: s' =>
      if is_sign c
      then match k s' with Some r => Some (c, r) | None => None end
      else None
  | [] => None
  end.
End Combinators.

(** [$] without MULTILINE: the end of the subject, or just before a line
    feed that ends it. *)
Definition at_end (s : str) : option unit :=
  match s with
  | [] => Some tt
  | [c] => if is_newline c then Some tt else None
  | _ => None
  end.

(** The pattern after the first [.+]: [\.\d+)([+-].+)$]. *)
Definition tail_pattern : str -> option (str * (ascii * (str * unit))) :=
  lit_dot (digit_plus (sign (any_plus at_end))).

(** [re.match(r'^(.+\.\d+)([+-].+)$', s)] followed by [match.groups()]:
    the two groups, or [None] when the pattern does not match. *)
Definition match_groups (s : str) : option (str * str) :=
  match any_plus tail_pattern s with
  | Some (base, (digits, (sg, (rest, _)))) =>
      Some (base ++ chr_dot :: digits, sg :: rest)
  | None => None
  end.

End Re.

(** ** Call outcomes *)

Inductive exn : Type :=
| ValueError
| KeyError (key : str)
| AttributeError
| TypeError
| JSONDecodeError (msg : str)
| RequestException (msg : str)
| UnicodeEncodeError.

Inductive outcome (A : Type) : Type :=
| Return (a : A)
| Raise (e : exn)
| Exit (code : Z).

Arguments Return {A} a.
Arguments Raise {A} e.
Arguments Exit {A} code.

Definition bind {A B} (m : outcome A) (f : A -> outcome B) : outcome B :=
  match m with
  | Return a => f a
  | Raise e => Raise e
  | Exit c => Exit c
  end.

Notation "x <- m ;; k" := (bind m (fun x => k))
  (at level 61, m at next level, right associativity).

(** Class tests of the [except] clauses.  [requests]' JSONDecodeError
    derives from both [ValueError] (through [json.JSONDecodeError]) and
    [requests.exceptions.RequestException] (through InvalidJSONError);
    UnicodeEncodeError derives from [ValueError] (through UnicodeError). *)
Definition is_ValueError (e : exn) : bool :=
  match e with
  | ValueError | JSONDecodeError _ | UnicodeEncodeError => true
  | _ => false
  end.

Definition is_RequestException (e : exn) : bool :=
  match e with
  | RequestException _ | JSONDecodeError _ => true
  | _ => false
  end.

(** [str(e)] *)
Definition exn_str (e : exn) : str :=
  match e with
  | RequestException msg => msg
  | JSONDecodeError msg => msg
  | KeyError k => k
  | _ => []
  end.

(** ** parse_iso_datetime (submission.py, lines 23-42) *)

(** The rewriting of [date_string], lines 27-40. *)
Definition normalize (date_string : str) : outcome str :=
  let date_string :=
    if endswith date_string chr_Z
    then drop_last date_string ++ S' "+00:00"
    else date_string in
  match Re.match_groups date_string with
  | Some (dt_part, tz_part) =>
      match rsplit1 chr_dot dt_part with
      | [base; frac] =>
          let frac := ljust 6 chr_zero (slice_to 6 frac) in
          Return (base ++ chr_dot :: frac ++ tz_part)
      | _ => Raise ValueError (* unpacking a list of the wrong length *)
      end
  | None => Return date_string
  end.

(** A timestamp value of [datetime]: the wall-clock fields and the UTC
    offset in microseconds ([None] for a naive value). *)
Record datetime : Type := mk_datetime {
  year : Z; month : Z; day : Z;
  hour : Z; minute : Z; second : Z; microsecond : Z;
  utcoffset : option Z
}.

Section ParseIsoDatetime.
(** [datetime.fromisoformat] of the standard library; [None] stands for
    the ValueError it raises on a string it rejects. *)
Variable fromisoformat : str -> option datetime.

Definition parse_iso_datetime (date_string : str) : outcome datetime :=
  date_string <- normalize date_string ;;
  match fromisoformat date_string with
  | Some dt => Return dt
  | None => Raise ValueError
  end.
End ParseIsoDatetime.

(** ** What the specification says about the normalizer *)

Module NormalizerSpec.

(** "truncate to the first 6 digits if longer, right-pad with zeros if
    shorter than 6" *)
Definition fix6 (digits : str) : str :=
  if 6 <? length digits then firstn 6 digits
  else if length digits <? 6 then digits ++ repeat chr_zero (6 - length digits)
  else digits.

Definition no_newline (s : str) : bool :=
  forallb (fun c => negb (is_newline c)) s.

Definition all_digits (s : str) : bool := forallb is_digit s.

(** The characters of a numeric offset after its sign: no line feed and no
    further sign. *)
Definition offset_body (s : str) : bool :=
  forallb (fun c => negb (is_newline c) && negb (is_sign c)) s.

(** Some ['.'] of [s] is directly followed by a digit. *)
Fixpoint has_fraction (s : str) : bool :=
  match s with
  | c :: ((d :: _) as s') =>
      (Ascii.eqb c chr_dot && is_digit d) || has_fraction s'
  | _ => false
  end.

Fixpoint skip_digits (s : str) : str :=
  match s with
  | c :: s' => if is_digit c then skip_digits s' else s
  | [] => []
  end.

(** Some fractional run of [s] (a ['.'] and the digits after it, at least
    one) is directly followed by a sign and the first character of an
    offset. *)
Fixpoint frac_then_sign (s : str) : bool :=
  match s with
  | [] => false
  | c :: s' =>
      (Ascii.eqb c chr_dot
       && match s' with d :: _ => is_digit d | [] => false end
       && match skip_digits s' with
          | x :: y :: _ => is_sign x && negb (is_newline y)
          | _ => false
          end)
      || frac_then_sign s'
  end.

(** An explicit numeric offset after its sign, as in [+02:00] or
    [-05:30:00]: digits and colons. *)
Definition numeric_offset (s : str) : bool :=
  forallb (fun c => is_digit c || Ascii.eqb c ":"%char) s.

(** Step 1: "If the string ends with Z, replace it with +00:00". *)
Definition replace_z (s : str) : str :=
  if endswith s chr_Z then drop_last s ++ S' "+00:00" else s.

(** The result of the final parse step on the string [s']. *)
Definition parsed (fromisoformat : str -> option datetime) (s' : str)
  : outcome datetime :=
  match fromisoformat s' with
  | Some dt => Return dt
  | None => Raise ValueError
  end.

End NormalizerSpec.
Import NormalizerSpec.


(** ** A model of [datetime.fromisoformat]

    The parser of the standard library as it is before Python 3.11, for
    the format [YYYY-MM-DD[*HH[:MM[:SS[.fff[fff]]]][+HH:MM[:SS[.ffffff]]]]],
    the one the comment at line 30 of submission.py describes: a fraction
    of 3 or 6 digits, or none (later versions accept more strings).
    Numbers are runs of ASCII digits.  It instantiates the parser
    parameter of [parse_iso_datetime] in examples; the theorems hold for
    every parser. *)

Module IsoFormat.

Definition digit_val (c : ascii) : option Z :=
  if is_digit c then Some (Z.of_nat (nat_of_ascii c) - 48)%Z else None.

Fixpoint digits_val (acc : Z) (s : str) : option Z :=
  match s with
  | [] => Some acc
  | c :: s' =>
      match digit_val c with
      | Some d => digits_val (10 * acc + d)%Z s'
      | None => None
      end
  end.

(** [int(s)] on a non-empty run of digits. *)
Definition parse_int (s : str) : option Z :=
  match s with [] => None | _ => digits_val 0%Z s end.

Definition obind {A B} (m : option A) (f : A -> option B) : option B :=
  match m with Some a => f a | None => None end.

Notation "x <-? m ;; k" := (obind m (fun x => k))
  (at level 61, m at next level, right associativity).

Definition is_colon (c : ascii) : bool := Ascii.eqb c ":"%char.

(** [_parse_isoformat_date] on [dtstr = date_string[0:10]]. *)
Definition parse_isoformat_date (dtstr : str) : option (Z * Z * Z) :=
  match dtstr with
  | [y1; y2; y3; y4; s1; m1; m2; s2; d1; d2] =>
      y <-? parse_int [y1; y2; y3; y4] ;;
      if negb (Ascii.eqb s1 chr_minus) then None else
      m <-? parse_int [m1; m2] ;;
      if negb (Ascii.eqb s2 chr_minus) then None else
      d <-? parse_int [d1; d2] ;;
      Some (y, m, d)
  | _ => None
  end.

(** The microsecond component after the seconds: nothing, or ['.'] and 3
    or 6 digits. *)
Definition parse_ff (rest : str) : option Z :=
  match rest with
  | [] => Some 0%Z
  | c :: f =>
      if negb (Ascii.eqb c chr_dot) then None
      else if length f =? 3 then v <-? parse_int f ;; Some (v * 1000)%Z
      else if length f =? 6 then parse_int f
      else None
  end.

(** [_parse_hh_mm_ss_ff]: [HH[:MM[:SS[.fff[fff]]]]]. *)
Definition parse_hh_mm_ss_ff (tstr : str) : option (Z * Z * Z * Z) :=
  match tstr with
  | h1 :: h2 :: t1 =>
      hh <-? parse_int [h1; h2] ;;
      match t1 with
      | [] => Some (hh, 0, 0, 0)%Z
      | c1 :: m1 :: m2 :: t2 =>
          if negb (is_colon c1) then None else
          mm <-? parse_int [m1; m2] ;;
          match t2 with
          | [] => Some (hh, mm, 0, 0)%Z
          | c2 :: s1 :: s2 :: t3 =>
              if negb (is_colon c2) then None else
              ss <-? parse_int [s1; s2] ;;
              us <-? parse_ff t3 ;;
              Some (hh, mm, ss, us)
          | _ => None
          end
      | _ => None
      end
  | _ => None
  end.

(** [s.find(c)] *)
Fixpoint find (c : ascii) (s : str) : option nat :=
  match s with
  | [] => None
  | x :: s' =>
      if Ascii.eqb x c then Some 0
      else match find c s' with Some i => Some (S i) | None => None end
  end.

Definition usec_of (h m s us : Z) : Z :=
  ((h * 3600 + m * 60 + s) * 1000000 + us)%Z.

(** [_parse_isoformat_time]: the time of day and the offset in
    microseconds.  The offset starts at the first ['-'], or else at the
    first ['+']. *)
Definition parse_isoformat_time (tstr : str)
  : option (Z * Z * Z * Z * option Z) :=
  if length tstr <? 2 then None else
  let tz_pos :=
    match find chr_minus tstr with
    | Some i => Some i
    | None => find chr_plus tstr
    end in
  match tz_pos with
  | None =>
      t <-? parse_hh_mm_ss_ff tstr ;;
      let '(hh, mm, ss, us) := t in Some (hh, mm, ss, us, None)
  | Some i =>
      t <-? parse_hh_mm_ss_ff (firstn i tstr) ;;
      let '(hh, mm, ss, us) := t in
      let tzstr := skipn (S i) tstr in
      let n := length tzstr in
      if negb ((n =? 5) || (n =? 8) || (n =? 15)) then None else
      z <-? parse_hh_mm_ss_ff tzstr ;;
      let '(zh, zm, zs, zus) := z in
      let off := usec_of zh zm zs zus in
      let off := if Ascii.eqb (nth i tstr chr_zero) chr_minus
                 then (- off)%Z else off in
      (* timezone(td) wants an offset strictly within a day *)
      if (Z.abs off <? 86400000000)%Z
      then Some (hh, mm, ss, us, Some off) else None
  end.

Definition is_leap (y : Z) : bool :=
  ((y mod 4 =? 0) && (negb (y mod 100 =? 0) || (y mod 400 =? 0)))%Z.

Definition days_in_month (y m : Z) : Z :=
  if (m =? 2)%Z then (if is_leap y then 29 else 28)%Z
  else if ((m =? 4) || (m =? 6) || (m =? 9) || (m =? 11))%Z then 30%Z
  else 31%Z.

(** The range checks of the [datetime] constructor. *)
Definition valid_fields (y mo d hh mm ss us : Z) : bool :=
  ((1 <=? y) && (y <=? 9999) && (1 <=? mo) && (mo <=? 12) &&
   (1 <=? d) && (d <=? days_in_month y mo) &&
   (hh <=? 23) && (mm <=? 59) && (ss <=? 59) && (us <=? 999999))%Z.

Definition fromisoformat (date_string : str) : option datetime :=
  let dstr := firstn 10 date_string in
  let tstr := skipn 11 date_string in
  d <-? parse_isoformat_date dstr ;;
  let '(y, mo, dd) := d in
  t <-? (match tstr with
         | [] => Some (0, 0, 0, 0, None)%Z
         | _ => parse_isoformat_time tstr
         end) ;;
  let '(hh, mm, ss, us, tz) := t in
  if valid_fields y mo dd hh mm ss us
  then Some (mk_datetime y mo dd hh mm ss us tz)
  else None.

(** The instant a timestamp with an offset denotes, in microseconds since
    0001-01-01T00:00:00 UTC (days counted as [date.toordinal] does). *)
Definition days_before_year (y : Z) : Z :=
  let y1 := (y - 1)%Z in (y1 * 365 + y1 / 4 - y1 / 100 + y1 / 400)%Z.

Fixpoint days_before_month_aux (y : Z) (m : nat) : Z :=
  match m with
  | O => 0%Z
  | S m' => (days_before_month_aux y m' + days_in_month y (Z.of_nat m))%Z
  end.

Definition ordinal (y mo d : Z) : Z :=
  (days_before_year y + days_before_month_aux y (Z.to_nat (mo - 1)) + d)%Z.

Definition instant (dt : datetime) : option Z :=
  match utcoffset dt with
  | Some off =>
      Some (ordinal (year dt) (month dt) (day dt) * 86400000000
            + usec_of (hour dt) (minute dt) (second dt) (microsecond dt)
            - off)%Z
  | None => None
  end.

End IsoFormat.

(** ** Decoded JSON as Python values *)

Inductive json : Type :=
| JNull                                 (* None *)
| JBool (b : bool)
| JInt (n : Z)
| JFloat (f : spec_float)
| JStr (s : str)
| JArr (items : list json)              (* list *)
| JObj (fields : list (str * json)).    (* dict; the first binding of a key counts *)

Definition float_zero : spec_float := S754_zero false.

(** [bool(v)] *)
Definition truthy (v : json) : bool :=
  match v with
  | JNull => false
  | JBool b => b
  | JInt n => negb (n =? 0)%Z
  | JFloat (S754_zero _) => false
  | JFloat _ => true
  | JStr s => match s with [] => false | _ => true end
  | JArr l => match l with [] => false | _ => true end
  | JObj d => match d with [] => false | _ => true end
  end.

Fixpoint lookup (key : str) (d : list (str * json)) : option json :=
  match d with
  | [] => None
  | (k, v) :: d' => if str_eqb k key then Some v else lookup key d'
  end.

(** [v.get(key, default)]: only a dict has the method. *)
Definition py_get (v : json) (key : str) (default : json) : outcome json :=
  match v with
  | JObj d =>
      match lookup key d with
      | Some x => Return x
      | None => Return default
      end
  | _ => Raise AttributeError
  end.

(** [v[key]] with a string key, on a value that has passed [v.get]. *)
Definition py_index (v : json) (key : str) : outcome json :=
  match v with
  | JObj d =>
      match lookup key d with
      | Some x => Return x
      | None => Raise (KeyError key)
      end
  | _ => Raise TypeError
  end.

Fixpoint dict_keys (seen : list str) (d : list (str * json)) : list json :=
  match d with
  | [] => []
  | (k, _) :: d' =>
      if existsb (str_eqb k) seen then dict_keys seen d'
      else JStr k :: dict_keys (k :: seen) d'
  end.

(** [for x in v]: the elements a [for] loop visits. *)
Definition py_iter (v : json) : outcome (list json) :=
  match v with
  | JArr l => Return l
  | JObj d => Return (dict_keys [] d)
  | JStr s => Return (map (fun c => JStr [c]) s)
  | _ => Raise TypeError
  end.

(** A loop body run on each element in turn, stopping at the first
    exception. *)
Fixpoint for_each {A B} (f : A -> outcome B) (l : list A) : outcome (list B) :=
  match l with
  | [] => Return []
  | x :: l' => y <- f x ;; ys <- for_each f l' ;; Return (y :: ys)
  end.

(** [try: m except cls as e: handler(e)] *)
Definition try_except {A} (m : outcome A) (cls : exn -> bool)
    (handler : exn -> outcome A) : outcome A :=
  match m with
  | Raise e => if cls e then handler e else Raise e
  | _ => m
  end.

(** [sys.exit(code)] *)
Definition sys_exit {A} (code : Z) : outcome A := Exit code.

(** [str(n)] for an [int]. *)
Definition str_of_int (n : Z) : str :=
  String.list_ascii_of_string (NilZero.string_of_int (Z.to_int n)).

(** ** The result types (submission_dtos.py)

    A field holds whatever value the decoder stored: Python does not check
    the annotations of a dataclass. *)

Record SubmissionChat : Type := mk_SubmissionChat {
  participant_count : json;
  chat_count : json;
  chat_length : json;
  chat_start_on : datetime;
  chat_ended_on : datetime
}.

Record ChatHistory : Type := mk_ChatHistory {
  ch_source_chat_id : json;
  chat_list : list SubmissionChat
}.

Record SubmissionHistory : Type := mk_SubmissionHistory {
  sh_is_valid : json;
  sh_error_text : json;
  last_submission : option datetime;
  chat_histories : list ChatHistory
}.

Record SubmitDataResponse : Type := mk_SubmitDataResponse {
  sd_is_valid : json;
  sd_error_text : json
}.

Record ChatEvaluationSummary : Type := mk_ChatEvaluationSummary {
  source_chat_id : json;
  message_count : json;
  chat_quality : json;
  chat_uniqueness : json
}.

Record EvaluationDetails : Type := mk_EvaluationDetails {
  total_messages : json;
  unique_messages : json;
  llm_reasoning : json;
  chat_summaries : list ChatEvaluationSummary
}.

Record EvaluateSubmissionResponse : Type := mk_EvaluateSubmissionResponse {
  is_valid : json;
  error_text : json;
  quality : json;
  uniqueness : json;
  score : json;
  details : option EvaluationDetails
}.

(** ** The HTTP exchange

    What [requests.post(url, json=payload, headers=headers)] does: it
    raises a RequestException, or returns a response.  [json_body] is what
    [response.json()] decodes, or the message of the error it raises when
    the body is not JSON.  The flows
    are embedded from this call on; building the URL and the payload is
    the business of code outside this module. *)

Inductive decoded_body : Type :=
| NotJson (msg : str)    (* [response.json()] raises JSONDecodeError(msg) *)
| Json (v : json).

Record response : Type := mk_response {
  status_code : Z;
  text : str;
  json_body : decoded_body
}.

Inductive http_exchange : Type :=
| TransportFailure (msg : str)
| Responds (r : response).

Definition requests_post (x : http_exchange) : outcome response :=
  match x with
  | TransportFailure msg => Raise (RequestException msg)
  | Responds r => Return r
  end.

(** [response.json()] *)
Definition response_json (r : response) : outcome json :=
  match json_body r with
  | Json v => Return v
  | NotJson msg => Raise (JSONDecodeError msg)
  end.

(** ** The three flows (submission.py) *)

(** [print(text)] *)
Definition py_print (stdout_encodes : str -> bool) (text : str)
  : outcome unit :=
  if stdout_encodes text then Return tt else Raise UnicodeEncodeError.

(** The text of [f"{v}"].  Only a [str] reaches the one f-string that is
    printed (line 95): [parse_iso_datetime] raises ValueError on a [str]
    only. *)
Definition format_value (v : json) : str :=
  match v with
  | JStr s => s
  | _ => []
  end.

Section Flows.
Variable fromisoformat : str -> option datetime.

(** Which texts the encoding of standard output can encode. *)
Variable stdout_encodes : str -> bool.

(** [parse_iso_datetime(v)] on a decoded value: [v.endswith] exists on a
    [str] only. *)
Definition parse_iso_datetime_value (v : json) : outcome datetime :=
  match v with
  | JStr s => parse_iso_datetime fromisoformat s
  | _ => Raise AttributeError
  end.

(** Lines 69-75: one element of the list comprehension. *)
Definition decode_chat (chat : json) : outcome SubmissionChat :=
  participant_count <- py_get chat (S' "participantCount") (JInt 0) ;;
  chat_count <- py_get chat (S' "chatCount") (JInt 0) ;;
  chat_length <- py_get chat (S' "chatLength") (JInt 0) ;;
  start_val <- py_index chat (S' "chatStartOn") ;;
  chat_start_on <- parse_iso_datetime_value start_val ;;
  ended_val <- py_index chat (S' "chatEndedOn") ;;
  chat_ended_on <- parse_iso_datetime_value ended_val ;;
  Return (mk_SubmissionChat participant_count chat_count chat_length
            chat_start_on chat_ended_on).

(** Lines 66-83: the body of the loop over [chatHistories]. *)
Definition decode_chat_history (chat_history_data : json)
  : outcome ChatHistory :=
  chats_json <- py_get chat_history_data (S' "chats") (JArr []) ;;
  chats <- py_iter chats_json ;;
  chat_list <- for_each decode_chat chats ;;
  source_chat_id <- py_get chat_history_data (S' "sourceChatId") (JInt 0) ;;
  Return (mk_ChatHistory source_chat_id chat_list).

(** Lines 86-96: [lastSubmission], with its own [except ValueError],
    whose handler prints a diagnostic. *)
Definition decode_last_submission (result_json : json)
  : outcome (option datetime) :=
  last_submission_val <- py_get result_json (S' "lastSubmission") JNull ;;
  try_except
    (if truthy last_submission_val
     then dt <- parse_iso_datetime_value last_submission_val ;;
          Return (Some dt)
     else Return None)
    is_ValueError
    (fun _ =>
       _ <- py_print stdout_encodes
              (S' "Invalid date format for last_submission_val: "
               ++ format_value last_submission_val) ;;
       Return None).

(** Lines 64-103: the inner [try] after [response.json()]. *)
Definition decode_submission_history (result_json : json)
  : outcome SubmissionHistory :=
  chat_histories_json <- py_get result_json (S' "chatHistories") (JArr []) ;;
  entries <- py_iter chat_histories_json ;;
  chat_histories <- for_each decode_chat_history entries ;;
  last_submission <- decode_last_submission result_json ;;
  is_valid <- py_get result_json (S' "isValid") (JBool false) ;;
  error_text <- py_get result_json (S' "errorText") (JStr []) ;;
  Return (mk_SubmissionHistory is_valid error_text last_submission
            chat_histories).

(** Lines 44-115, from the call of [requests.post] on. *)
Definition get_submission_historical_data (x : http_exchange)
  : outcome SubmissionHistory :=
  try_except
    (r <- requests_post x ;;
     if (status_code r =? 200)%Z
     then try_except
            (result_json <- response_json r ;;
             decode_submission_history result_json)
            is_ValueError (fun _ => sys_exit 1)
     else sys_exit 1)
    is_RequestException
    (fun _ => sys_exit 1).
End Flows.

(** Lines 181-186: one element of [chatSummaries]. *)
Definition decode_chat_summary (summary_json : json)
  : outcome ChatEvaluationSummary :=
  source_chat_id <- py_get summary_json (S' "sourceChatId") (JStr []) ;;
  message_count <- py_get summary_json (S' "messageCount") (JInt 0) ;;
  chat_quality <- py_get summary_json (S' "chatQuality") (JFloat float_zero) ;;
  chat_uniqueness <-
    py_get summary_json (S' "chatUniqueness") (JFloat float_zero) ;;
  Return (mk_ChatEvaluationSummary source_chat_id message_count
            chat_quality chat_uniqueness).

(** Lines 179-193: the body of [if details_json:]. *)
Definition decode_details_object (details_json : json)
  : outcome EvaluationDetails :=
  summaries_json <- py_get details_json (S' "chatSummaries") (JArr []) ;;
  summaries <- py_iter summaries_json ;;
  chat_summaries <- for_each decode_chat_summary summaries ;;
  total_messages <- py_get details_json (S' "totalMessages") (JInt 0) ;;
  unique_messages <- py_get details_json (S' "uniqueMessages") (JInt 0) ;;
  llm_reasoning <- py_get details_json (S' "llmReasoning") JNull ;;
  Return (mk_EvaluationDetails total_messages unique_messages
            llm_reasoning chat_summaries).

(** Lines 176-193: [details]. *)
Definition decode_details (result_json : json)
  : outcome (option EvaluationDetails) :=
  details_json <- py_get result_json (S' "details") JNull ;;
  if truthy details_json
  then details <- decode_details_object details_json ;; Return (Some details)
  else Return None.

(** Lines 173-202: the 200 branch after [response.json()]. *)
Definition decode_evaluation (result_json : json)
  : outcome EvaluateSubmissionResponse :=
  (* the two lookups of the logging call at line 173 *)
  _ <- py_get result_json (S' "quality") (JInt 0) ;;
  _ <- py_get result_json (S' "uniqueness") (JInt 0) ;;
  details <- decode_details result_json ;;
  is_valid <- py_get result_json (S' "isValid") (JBool false) ;;
  error_text <- py_get result_json (S' "errorText") (JStr []) ;;
  quality <- py_get result_json (S' "quality") (JFloat float_zero) ;;
  uniqueness <- py_get result_json (S' "uniqueness") (JFloat float_zero) ;;
  score <- py_get result_json (S' "score") (JFloat float_zero) ;;
  Return (mk_EvaluateSubmissionResponse is_valid error_text quality
            uniqueness score details).

(** The result of the two failure branches, lines 205-211 and 216-222;
    [details] keeps the default of the dataclass. *)
Definition failed_evaluation (error_text : str) : EvaluateSubmissionResponse :=
  mk_EvaluateSubmissionResponse (JBool false) (JStr error_text)
    (JFloat float_zero) (JFloat float_zero) (JFloat float_zero) None.

(** Lines 119-222, from the call of [requests.post] on. *)
Definition evaluate_submission (x : http_exchange)
  : outcome EvaluateSubmissionResponse :=
  try_except
    (r <- requests_post x ;;
     if (status_code r =? 200)%Z
     then result_json <- response_json r ;; decode_evaluation result_json
     else Return (failed_evaluation
                    (S' "Evaluate request failed with status "
                     ++ str_of_int (status_code r))))
    is_RequestException
    (fun e => Return (failed_evaluation (exn_str e))).

(** Lines 242-245. *)
Definition decode_submit_data (result_json : json)
  : outcome SubmitDataResponse :=
  is_valid <- py_get result_json (S' "isValid") (JBool false) ;;
  error_text <- py_get result_json (S' "errorText") (JStr []) ;;
  Return (mk_SubmitDataResponse is_valid error_text).

(** Lines 225-254, from the call of [requests.post] on. *)
Definition submit_data (x : http_exchange) : outcome SubmitDataResponse :=
  try_except
    (r <- requests_post x ;;
     if (status_code r =? 200)%Z
     then result_json <- response_json r ;; decode_submit_data result_json
     else sys_exit 1)
    is_RequestException
    (fun _ => sys_exit 1).

(** ** What the specification says about decoding *)

Module DecodeSpec.

(** The value a field resolves to: the one on the wire, or its default. *)
Definition field (o : list (str * json)) (key : str) (default : json) : json :=
  match lookup key o with
  | Some v => v
  | None => default
  end.

(** Decoder [D] treats an object without [key] as the same object with
    [key] bound to [default]. *)
Definition absent_as_default {A} (D : json -> outcome A)
    (key : str) (default : json) : Prop :=
  forall o, lookup key o = None ->
            D (JObj o) = D (JObj ((key, default) :: o)).

(** The chat histories of a top-level object: what lines 64-83 build. *)
Definition chat_histories_of (fromisoformat : str -> option datetime)
    (o : list (str * json)) : outcome (list ChatHistory) :=
  entries <- py_iter (field o (S' "chatHistories") (JArr [])) ;;
  for_each (decode_chat_history fromisoformat) entries.

(** The diagnostic printed for a [lastSubmission] string that does not
    parse. *)
Definition diagnostic (s : str) : str :=
  S' "Invalid date format for last_submission_val: " ++ s.

(** [lastSubmission] is missing, empty (falsy), or a string on which the
    normalizer fails and for which the diagnostic can be printed. *)
Definition last_submission_dropped (fromisoformat : str -> option datetime)
    (stdout_encodes : str -> bool) (o : list (str * json)) : Prop :=
  lookup (S' "lastSubmission") o = None \/
  (exists v, lookup (S' "lastSubmission") o = Some v /\ truthy v = false) \/
  (exists s, lookup (S' "lastSubmission") o = Some (JStr s) /\
             parse_iso_datetime fromisoformat s = Raise ValueError /\
             stdout_encodes (diagnostic s) = true).

(** A standard output that encodes every text, as UTF-8 does for the
    strings of this model. *)
Definition utf8_stdout (text : str) : bool := true.

(** A standard output with the ASCII encoding. *)
Definition ascii_stdout (text : str) : bool :=
  forallb (fun c => nat_of_ascii c <? 128) text.

(** The object [o] without the key [key]. *)
Definition without (key : str) (o : list (str * json)) : list (str * json) :=
  filter (fun kv => negb (str_eqb (fst kv) key)) o.

(** A response with status 200 and the given decoded body. *)
Definition ok_response (body : json) : response :=
  mk_response 200 [] (Json body).

End DecodeSpec.
Import DecodeSpec.

(** ** The request of the evaluate flow (submission.py, lines 141-169) *)

Record request : Type := mk_request {
  req_url : str;
  req_json : json
}.

(** Lines 160-163: one element of the [Chats] list. *)
Definition reshape_chat (chat : json) : outcome json :=
  chat_id <- py_get chat (S' "chat_id") JNull ;;
  contents <- py_get chat (S' "contents") (JArr []) ;;
  Return (JObj [(S' "ChatId", chat_id); (S' "Contents", contents)]).

Section EvaluateCall.
(** [get_validation_api_url(config, path)] of
    [psl_proof.utils.validation_api], for the configuration of the call. *)
Variable get_validation_api_url : str -> str.

(** What the [SourceData] argument gives: [proof_token], [source.value],
    [str(user)], [submission_by()] and [submission_date.isoformat()]. *)
Variables proof_token source_value submitted_by : json.
Variables source_id submitted_on : str.

(** The exchange that [requests.post] has for a request. *)
Variable post : request -> http_exchange.

(** Lines 150-166. *)
Definition build_evaluate_payload (raw_input_data : json) : outcome json :=
  raw_chats <- py_get raw_input_data (S' "chats") (JArr []) ;;
  submission_token <-
    py_get raw_input_data (S' "submission_token") (JStr []) ;;
  chats <- py_iter raw_chats ;;
  chats <- for_each reshape_chat chats ;;
  Return (JObj [(S' "ProofToken", proof_token);
                (S' "DataSource", source_value);
                (S' "SourceId", JStr source_id);
                (S' "SubmittedBy", submitted_by);
                (S' "SubmittedOn", JStr submitted_on);
                (S' "SubmissionToken", submission_token);
                (S' "Chats", JArr chats)]).

(** Lines 141-222: the whole call on the raw input. *)
Definition evaluate_submission_call (raw_input_data : json)
  : outcome EvaluateSubmissionResponse :=
  try_except
    (let url := get_validation_api_url (S' "api/submissions/evaluate") in
     payload <- build_evaluate_payload raw_input_data ;;
     r <- requests_post (post (mk_request url payload)) ;;
     if (status_code r =? 200)%Z
     then result_json <- response_json r ;; decode_evaluation result_json
     else Return (failed_evaluation
                    (S' "Evaluate request failed with status "
                     ++ str_of_int (status_code r))))
    is_RequestException
    (fun e => Return (failed_evaluation (exn_str e))).
End EvaluateCall.

(** ** Which outcomes a call can have *)

Module OutcomeSpec.

(** The call returns, or raises an exception of the class [allowed]; it
    does not exit. *)
Definition only_raises {A} (allowed : exn -> bool) (m : outcome A) : Prop :=
  match m with
  | Return _ => True
  | Raise e => allowed e = true
  | Exit _ => False
  end.

Definition is_AttributeError (e : exn) : bool :=
  match e with AttributeError => true | _ => false end.

(** The errors of a wrongly typed value: no such method, or not iterable. *)
Definition is_type_mismatch (e : exn) : bool :=
  match e with AttributeError | TypeError => true | _ => false end.

(** A wrongly typed value or one of the two required keys missing. *)
Definition is_shape_error (e : exn) : bool :=
  match e with
  | AttributeError | TypeError => true
  | KeyError k =>
      str_eqb k (S' "chatStartOn") || str_eqb k (S' "chatEndedOn")
  | _ => false
  end.

(** What decoding a historical-data body can raise. *)
Definition is_history_decode_error (e : exn) : bool :=
  match e with
  | ValueError | UnicodeEncodeError => true
  | _ => is_shape_error e
  end.

(** The value is a JSON object. *)
Definition is_object (v : json) : bool :=
  match v with JObj _ => true | _ => false end.

(** The value is a JSON string. *)
Definition is_string (v : json) : bool :=
  match v with JStr _ => true | _ => false end.

(** The [{ChatId, Contents}] pair of a raw chat object. *)
Definition reshaped (chat : json) : json :=
  match chat with
  | JObj c => JObj [(S' "ChatId", field c (S' "chat_id") JNull);
                    (S' "Contents", field c (S' "contents") (JArr []))]
  | _ => JNull
  end.

(** The summary that a chat summary object decodes to. *)
Definition summary_of (v : json) : ChatEvaluationSummary :=
  match v with
  | JObj s =>
      mk_ChatEvaluationSummary
        (field s (S' "sourceChatId") (JStr []))
        (field s (S' "messageCount") (JInt 0))
        (field s (S' "chatQuality") (JFloat float_zero))
        (field s (S' "chatUniqueness") (JFloat float_zero))
  | _ => mk_ChatEvaluationSummary JNull JNull JNull JNull
  end.

End OutcomeSpec.
Import OutcomeSpec.
(** ** Lemmas on the string operations *)

Lemma rsplit1_no_sep (sep : ascii) (s : str) :
  forallb (fun c => negb (Ascii.eqb c sep)) s = true ->
  rsplit1 sep s = [s].
Proof.
  induction s as [|c s IH]; simpl; [reflexivity|].
  intros H. apply andb_true_iff in H as [Hc Hs].
  rewrite (IH Hs). apply negb_true_iff in Hc. now rewrite Hc.
Qed.

Lemma rsplit1_last (sep : ascii) (a b : str) :
  forallb (fun c => negb (Ascii.eqb c sep)) b = true ->
  rsplit1 sep (a ++ sep :: b) = [a; b].
Proof.
  intros Hb. induction a as [|c a IH]; simpl.
  - rewrite (rsplit1_no_sep _ _ Hb). now rewrite Ascii.eqb_refl.
  - now rewrite IH.
Qed.

Lemma is_digit_not_dot (c : ascii) :
  is_digit c = true -> Ascii.eqb c chr_dot = false.
Proof.
  intros H. destruct (Ascii.eqb_spec c chr_dot) as [->|]; [discriminate|reflexivity].
Qed.

Lemma is_digit_not_sign (c : ascii) :
  is_digit c = true -> is_sign c = false.
Proof.
  unfold is_sign. intros H.
  destruct (Ascii.eqb_spec c chr_plus) as [->|]; [discriminate|].
  destruct (Ascii.eqb_spec c chr_minus) as [->|]; [discriminate|reflexivity].
Qed.

Lemma is_sign_not_digit (c : ascii) :
  is_sign c = true -> is_digit c = false.
Proof.
  intros H. destruct (is_digit c) eqn:E; [|reflexivity].
  apply is_digit_not_sign in E. congruence.
Qed.

Lemma is_sign_not_dot (c : ascii) :
  is_sign c = true -> Ascii.eqb c chr_dot = false.
Proof.
  intros H. destruct (Ascii.eqb_spec c chr_dot) as [->|]; [discriminate|reflexivity].
Qed.

Lemma all_digits_no_dot (d : str) :
  all_digits d = true ->
  forallb (fun c => negb (Ascii.eqb c chr_dot)) d = true.
Proof.
  unfold all_digits. induction d as [|c d IH]; simpl; [reflexivity|].
  intros H. apply andb_true_iff in H as [Hc Hd].
  now rewrite (is_digit_not_dot _ Hc), (IH Hd).
Qed.

Lemma ljust_slice_fix6 (d : str) :
  ljust 6 chr_zero (slice_to 6 d) = fix6 d.
Proof.
  unfold ljust, slice_to, fix6.
  destruct (6 <? length d) eqn:E1.
  - apply Nat.ltb_lt in E1.
    rewrite firstn_length_le by lia. simpl. apply app_nil_r.
  - apply Nat.ltb_ge in E1. rewrite firstn_all2 by lia.
    destruct (length d <? 6) eqn:E2; [reflexivity|].
    apply Nat.ltb_ge in E2. replace (6 - length d) with 0 by lia.
    apply app_nil_r.
Qed.

Lemma endswith_app_last (p : str) (c x : ascii) :
  endswith (p ++ [x]) c = Ascii.eqb x c.
Proof.
  induction p as [|y p IH]; simpl; [reflexivity|].
  rewrite IH. destruct (p ++ [x]) eqn:E; [|reflexivity].
  now destruct p.
Qed.

Lemma endswith_inv (s : str) (c : ascii) :
  endswith s c = true -> s = drop_last s ++ [c].
Proof.
  unfold drop_last. induction s as [|x s IH]; simpl; [discriminate|].
  destruct s as [|y s'].
  - intros H. apply Ascii.eqb_eq in H. now subst.
  - intros H. change (x :: y :: s' = x :: (removelast (y :: s') ++ [c])).
    f_equal. exact (IH H).
Qed.

(** ** Lemmas on the pattern *)

Module ReFacts.
Import Re.

Lemma any_plus_sound (R : Type) (k : str -> option R) (s m : str) (r : R) :
  any_plus k s = Some (m, r) ->
  m <> [] /\ no_newline m = true /\ exists s', s = m ++ s' /\ k s' = Some r.
Proof.
  revert m r. induction s as [|c s IH]; simpl; intros m r H; [discriminate|].
  destruct (is_newline c) eqn:Hc; [discriminate|].
  destruct (any_plus k s) as [[m0 r0]|] eqn:E.
  - injection H as <- <-. destruct (IH _ _ eq_refl) as (_ & Hn & s' & -> & Hk).
    repeat split; [discriminate| simpl; now rewrite Hc |].
    exists s'. now split.
  - destruct (k s) as [r0|] eqn:Ek; [|discriminate].
    injection H as <- <-.
    repeat split; [discriminate| simpl; now rewrite Hc |].
    exists s. now split.
Qed.

Lemma digit_plus_sound (R : Type) (k : str -> option R) (s m : str) (r : R) :
  digit_plus k s = Some (m, r) ->
  m <> [] /\ all_digits m = true /\ exists s', s = m ++ s' /\ k s' = Some r.
Proof.
  revert m r. induction s as [|c s IH]; simpl; intros m r H; [discriminate|].
  destruct (is_digit c) eqn:Hc; [|discriminate].
  destruct (digit_plus k s) as [[m0 r0]|] eqn:E.
  - injection H as <- <-. destruct (IH _ _ eq_refl) as (_ & Hn & s' & -> & Hk).
    repeat split; [discriminate| simpl; now rewrite Hc |].
    exists s'. now split.
  - destruct (k s) as [r0|] eqn:Ek; [|discriminate].
    injection H as <- <-.
    repeat split; [discriminate| simpl; now rewrite Hc |].
    exists s. now split.
Qed.

Lemma at_end_sound (s : str) (u : unit) :
  at_end s = Some u -> s = [] \/ s = [chr_nl].
Proof.
  destruct s as [|c [|d s]]; simpl; intros H; [now left| |discriminate].
  destruct (is_newline c) eqn:E; [|discriminate].
  right. apply Ascii.eqb_eq in E. now subst.
Qed.

(** A match decomposes the subject. *)
Lemma match_groups_sound (s dt tz : str) :
  match_groups s = Some (dt, tz) ->
  exists base digits sg off e,
    s = base ++ chr_dot :: digits ++ sg :: off ++ e /\
    dt = base ++ chr_dot :: digits /\ tz = sg :: off /\
    base <> [] /\ digits <> [] /\ all_digits digits = true /\
    is_sign sg = true /\ off <> [] /\ no_newline off = true /\
    (e = [] \/ e = [chr_nl]).
Proof.
  unfold match_groups.
  destruct (any_plus _ s) as [[base [digits [sg [off u]]]]|] eqn:E; [|discriminate].
  intros H. injection H as <- <-.
  apply any_plus_sound in E as (Hb & _ & s1 & -> & E).
  unfold tail_pattern, lit_dot in E. destruct s1 as [|c s1]; [discriminate|].
  destruct (Ascii.eqb_spec c chr_dot) as [->|]; [|discriminate].
  apply digit_plus_sound in E as (Hd & Hdd & s2 & -> & E).
  unfold sign in E. destruct s2 as [|c s2]; [discriminate|].
  destruct (is_sign c) eqn:Hs; [|discriminate].
  destruct (any_plus at_end s2) as [[off' u']|] eqn:E2; [|discriminate].
  injection E as -> -> ->.
  apply any_plus_sound in E2 as (Ho & Hon & e & -> & E2).
  apply at_end_sound in E2.
  exists base, digits, sg, off, e. repeat split; assumption.
Qed.

Lemma any_plus_cons (R : Type) (k : str -> option R) (c : ascii) (s : str) :
  any_plus k (c :: s) =
  if is_newline c then None
  else match any_plus k s with
       | Some (m, r) => Some (c :: m, r)
       | None => match k s with Some r => Some ([c], r) | None => None end
       end.
Proof. reflexivity. Qed.

Lemma any_plus_at_end (off e : str) :
  off <> [] -> no_newline off = true -> e = [] \/ e = [chr_nl] ->
  any_plus at_end (off ++ e) = Some (off, tt).
Proof.
  intros Hne Hnl He. induction off as [|c off IH]; [congruence|].
  simpl in Hnl. apply andb_true_iff in Hnl as [Hc Hnl].
  apply negb_true_iff in Hc. simpl. rewrite Hc.
  destruct off as [|c' off'].
  - simpl. destruct He as [->| ->]; reflexivity.
  - now rewrite IH.
Qed.

Lemma digit_plus_run (R : Type) (k : str -> option R) (digits t : str) (r : R) :
  digits <> [] -> all_digits digits = true ->
  (match t with c :: _ => is_digit c = false | [] => True end) ->
  k t = Some r ->
  digit_plus k (digits ++ t) = Some (digits, r).
Proof.
  intros Hne Hd Ht Hk. induction digits as [|c d IH]; [congruence|].
  simpl in Hd. apply andb_true_iff in Hd as [Hc Hd].
  simpl. rewrite Hc. destruct d as [|c' d'].
  - simpl. replace (digit_plus k t) with (@None (str * R)); [now rewrite Hk|].
    destruct t as [|x t]; simpl; [reflexivity|]. now rewrite Ht.
  - now rewrite IH.
Qed.

Lemma tail_pattern_here (digits off e : str) (sg : ascii) :
  digits <> [] -> all_digits digits = true -> is_sign sg = true ->
  off <> [] -> no_newline off = true -> e = [] \/ e = [chr_nl] ->
  tail_pattern (chr_dot :: digits ++ sg :: off ++ e)
  = Some (digits, (sg, (off, tt))).
Proof.
  intros Hd Hdd Hs Ho Hon He. unfold tail_pattern, lit_dot.
  rewrite Ascii.eqb_refl. apply digit_plus_run; try assumption.
  - now apply is_sign_not_digit.
  - unfold sign. rewrite Hs. now rewrite any_plus_at_end.
Qed.

(** No match starts inside a text without sign, *)
Lemma tail_pattern_no_sign (t : str) :
  existsb is_sign t = false ->
  tail_pattern t = None /\ any_plus tail_pattern t = None.
Proof.
  intros H.
  assert (Hk : forall t, existsb is_sign t = false -> tail_pattern t = None).
  { clear. intros t H. destruct (tail_pattern t) as [[d [sg [off u]]]|] eqn:E;
      [|reflexivity]. exfalso.
    unfold tail_pattern, lit_dot in E. destruct t as [|c t]; [discriminate|].
    destruct (Ascii.eqb c chr_dot); [|discriminate].
    apply digit_plus_sound in E as (_ & _ & s2 & -> & E).
    unfold sign in E. destruct s2 as [|x s2]; [discriminate|].
    destruct (is_sign x) eqn:Hx; [|discriminate].
    simpl in H. apply orb_false_iff in H as [_ H].
    rewrite existsb_app in H. simpl in H. rewrite Hx in H.
    rewrite orb_true_r in H. discriminate. }
  split; [now apply Hk|].
  induction t as [|c t IH]; simpl; [reflexivity|].
  simpl in H. apply orb_false_iff in H as [_ H].
  rewrite (IH H), (Hk _ H). now destruct (is_newline c).
Qed.

(** nor inside the digit run and offset of the last fractional part. *)
Lemma any_plus_tail_digits (d t : str) (sg : ascii) :
  all_digits d = true -> is_sign sg = true -> existsb is_sign t = false ->
  any_plus tail_pattern (d ++ sg :: t) = None.
Proof.
  intros Hd Hs Ht. destruct (tail_pattern_no_sign _ Ht) as [Hk Ha].
  induction d as [|c d IH]; simpl.
  - rewrite Ha, Hk. now destruct (is_newline sg).
  - simpl in Hd. apply andb_true_iff in Hd as [Hc Hd].
    rewrite (IH Hd).
    replace (tail_pattern (d ++ sg :: t)) with
      (@None (str * (ascii * (str * unit)))); [now destruct (is_newline c)|].
    unfold tail_pattern, lit_dot. destruct d as [|x d]; simpl.
    + now rewrite (is_sign_not_dot _ Hs).
    + simpl in Hd. apply andb_true_iff in Hd as [Hx _].
      now rewrite (is_digit_not_dot _ Hx).
Qed.

Lemma offset_body_split (off : str) :
  offset_body off = true ->
  no_newline off = true /\ existsb is_sign off = false.
Proof.
  unfold offset_body, no_newline. induction off as [|c off IH]; simpl; [easy|].
  intros H. apply andb_true_iff in H as [Hc H].
  apply andb_true_iff in Hc as [H1 H2]. destruct (IH H) as [-> ->].
  apply negb_true_iff in H2. now rewrite H1, H2.
Qed.

(** The match on a string of the shape
    [<base>.<digits><sign><offset>], with or without a final line feed. *)
Lemma match_groups_shape (base digits off e : str) (sg : ascii) :
  base <> [] -> no_newline base = true ->
  digits <> [] -> all_digits digits = true -> is_sign sg = true ->
  off <> [] -> offset_body off = true -> e = [] \/ e = [chr_nl] ->
  match_groups (base ++ chr_dot :: digits ++ sg :: off ++ e)
  = Some (base ++ chr_dot :: digits, sg :: off).
Proof.
  intros Hb Hbn Hd Hdd Hs Ho Hob He.
  destruct (offset_body_split _ Hob) as [Hon Hos].
  assert (Hoe : existsb is_sign (off ++ e) = false).
  { rewrite existsb_app, Hos. destruct He as [->| ->]; reflexivity. }
  unfold match_groups.
  replace (any_plus tail_pattern (base ++ chr_dot :: digits ++ sg :: off ++ e))
    with (Some (base, (digits, (sg, (off, tt))))); [reflexivity|].
  symmetry. induction base as [|c b IH]; [congruence|].
  simpl in Hbn. apply andb_true_iff in Hbn as [Hc Hbn].
  apply negb_true_iff in Hc.
  rewrite <- app_comm_cons, any_plus_cons, Hc.
  destruct b as [|c' b'].
  - change ([] ++ chr_dot :: digits ++ sg :: off ++ e)
      with (chr_dot :: digits ++ sg :: off ++ e).
    rewrite (tail_pattern_here digits off e sg Hd Hdd Hs Ho Hon He).
    rewrite any_plus_cons.
    rewrite (any_plus_tail_digits digits (off ++ e) sg Hdd Hs Hoe).
    replace (tail_pattern (digits ++ sg :: off ++ e)) with
      (@None (str * (ascii * (str * unit)))); [reflexivity|].
    unfold tail_pattern, lit_dot. destruct digits as [|x d]; [congruence|].
    simpl in Hdd. apply andb_true_iff in Hdd as [Hx _].
    simpl. now rewrite (is_digit_not_dot _ Hx).
  - rewrite IH; [reflexivity|discriminate|assumption].
Qed.

End ReFacts.

(** ** The normalizer *)

Section NormalizerFacts.
Import Re ReFacts.

Lemma normalize_replace_z (s : str) :
normalize s =
match match_groups (replace_z s) with
| Some (dt_part, tz_part) =>
    match rsplit1 chr_dot dt_part with
    | [base; frac] =>
        Return (base ++ chr_dot :: ljust 6 chr_zero (slice_to 6 frac)
                  ++ tz_part)
    | _ => Raise ValueError
    end
| None => Return (replace_z s)
end.
Proof. reflexivity. Qed.

Lemma replace_z_suffix (p : str) :
replace_z (p ++ [chr_Z]) = p ++ S' "+00:00".
Proof.
unfold replace_z, drop_last.
now rewrite endswith_app_last, removelast_last.
Qed.

Lemma replace_z_other (s : str) :
endswith s chr_Z = false -> replace_z s = s.
Proof. unfold replace_z. now intros ->. Qed.

(** The rewriting of a string of the shape, final line feed or not. *)
Lemma normalize_shape (s base digits off e : str) (sg : ascii) :
replace_z s = base ++ chr_dot :: digits ++ sg :: off ++ e ->
base <> [] -> no_newline base = true ->
digits <> [] -> all_digits digits = true -> is_sign sg = true ->
off <> [] -> offset_body off = true -> e = [] \/ e = [chr_nl] ->
normalize s = Return (base ++ chr_dot :: fix6 digits ++ sg :: off).
Proof.
intros Hs Hb Hbn Hd Hdd Hsg Ho Hob He.
rewrite normalize_replace_z, Hs.
rewrite (match_groups_shape base digits off e sg) by assumption.
rewrite rsplit1_last by now apply all_digits_no_dot.
now rewrite ljust_slice_fix6.
Qed.

(** Every input: the string is rewritten at a fractional run followed by
  a sign, or not at all. *)
Lemma normalize_cases (s : str) :
normalize s = Return (replace_z s) \/
exists base digits sg off e,
  replace_z s = base ++ chr_dot :: digits ++ sg :: off ++ e /\
  base <> [] /\ digits <> [] /\ all_digits digits = true /\
  is_sign sg = true /\ off <> [] /\ (e = [] \/ e = [chr_nl]) /\
  normalize s = Return (base ++ chr_dot :: fix6 digits ++ sg :: off).
Proof.
rewrite normalize_replace_z.
destruct (match_groups (replace_z s)) as [[dt tz]|] eqn:E; [right|now left].
apply match_groups_sound in E
  as (base & digits & sg & off & e & Hs & -> & -> & Hb & Hd & Hdd & Hsg
      & Ho & _ & He).
exists base, digits, sg, off, e. repeat split; try assumption.
rewrite rsplit1_last by now apply all_digits_no_dot.
now rewrite ljust_slice_fix6.
Qed.

Lemma normalize_returns (s : str) : exists s', normalize s = Return s'.
Proof.
destruct (normalize_cases s) as [H|(b & d & sg & off & e & H)].
- eauto.
- decompose [and] H. eauto.
Qed.

Lemma skip_digits_run (d t : str) :
all_digits d = true ->
(match t with c :: _ => is_digit c = false | [] => True end) ->
skip_digits (d ++ t) = t.
Proof.
intros Hd Ht. induction d as [|c d IH]; simpl.
- destruct t as [|x t]; [reflexivity|]. simpl. now rewrite Ht.
- simpl in Hd. apply andb_true_iff in Hd as [-> Hd]. auto.
Qed.

Lemma frac_then_sign_app (b t : str) :
frac_then_sign t = true -> frac_then_sign (b ++ t) = true.
Proof.
intros H. induction b as [|c b IH]; [assumption|].
simpl. rewrite IH. apply orb_true_r.
Qed.

Lemma frac_then_sign_here (d off t : str) (sg : ascii) :
  d <> [] -> all_digits d = true -> is_sign sg = true ->
  off <> [] -> no_newline off = true ->
  frac_then_sign (chr_dot :: d ++ sg :: off ++ t) = true.
Proof.
  intros Hd Hdd Hs Ho Hon. cbn [frac_then_sign]. rewrite Ascii.eqb_refl.
  rewrite skip_digits_run; [|assumption|now apply is_sign_not_digit].
  destruct off as [|y off]; [congruence|].
  simpl in Hon. apply andb_true_iff in Hon as [Hy _].
  cbn [app]. rewrite Hs, Hy.
  destruct d as [|x d]; [congruence|].
  simpl in Hdd. apply andb_true_iff in Hdd as [Hx _]. simpl. now rewrite Hx.
Qed.

(** Without a fractional run followed by a sign the pattern does not
    match. *)
Lemma match_groups_needs_sign (s : str) :
  frac_then_sign s = false -> match_groups s = None.
Proof.
  intros H. destruct (match_groups s) as [[dt tz]|] eqn:E; [|reflexivity].
  apply match_groups_sound in E
    as (base & digits & sg & off & e & -> & _ & _ & _ & Hd & Hdd & Hsg
        & Ho & Hon & _).
  rewrite frac_then_sign_app in H; [discriminate|].
  now apply frac_then_sign_here.
Qed.

Lemma has_fraction_frac_then_sign (s : str) :
has_fraction s = false -> frac_then_sign s = false.
Proof.
induction s as [|c s IH]; [reflexivity|].
cbn [has_fraction frac_then_sign]. destruct s as [|d s'].
- intros _. now rewrite andb_false_r.
- intros H. apply orb_false_iff in H as [H1 H2].
  rewrite (IH H2), orb_false_r.
  apply andb_false_iff in H1 as [->| ->]; [reflexivity|].
  now rewrite andb_false_r.
Qed.

Lemma normalize_unchanged (s : str) :
endswith s chr_Z = false -> frac_then_sign s = false ->
normalize s = Return s.
Proof.
intros Hz Hf. rewrite normalize_replace_z, (replace_z_other s Hz).
now rewrite match_groups_needs_sign.
Qed.

Lemma numeric_offset_body (off : str) :
numeric_offset off = true -> offset_body off = true.
Proof.
unfold numeric_offset, offset_body.
induction off as [|c off IH]; simpl; [reflexivity|].
intros H. apply andb_true_iff in H as [Hc H]. rewrite (IH H), andb_true_r.
apply orb_true_iff in Hc as [Hc|Hc].
- rewrite (is_digit_not_sign _ Hc).
  destruct (Ascii.eqb_spec c chr_nl) as [->|]; [discriminate|].
  unfold is_newline. destruct (Ascii.eqb_spec c chr_nl); [contradiction|reflexivity].
- apply Ascii.eqb_eq in Hc. now subst.
Qed.

Lemma numeric_offset_no_Z (p off : str) :
off <> [] -> numeric_offset off = true -> endswith (p ++ off) chr_Z = false.
Proof.
intros Hne H. destruct (exists_last Hne) as (o & x & ->).
rewrite app_assoc, endswith_app_last.
unfold numeric_offset in H. rewrite forallb_app in H.
apply andb_true_iff in H as [_ H]. simpl in H. rewrite andb_true_r in H.
destruct (Ascii.eqb_spec x chr_Z) as [->|]; [discriminate|reflexivity].
Qed.

End NormalizerFacts.

(** C1: for every input string, [parse_iso_datetime] replaces a trailing
    "Z" by "+00:00"; when the string then has the shape
    [<date-time>.<digits><sign><offset>] the digit run is cut to its first
    6 digits if longer, padded with zeros to 6 if shorter, and put back in
    place; the rewritten string (which always exists) is what is parsed.
    "2024-01-15T10:30:00.123456789Z" gives 2024-01-15T10:30:00.123456+00:00. *)
Theorem parse_iso_datetime_normalizes
    (fromisoformat : str -> option datetime) (s : str) :
  (forall p, s = p ++ [chr_Z] -> replace_z s = p ++ S' "+00:00") /\
  (endswith s chr_Z = false -> replace_z s = s) /\
  (forall base digits sg off,
      replace_z s = base ++ chr_dot :: digits ++ sg :: off ->
      base <> [] -> no_newline base = true ->
      digits <> [] -> all_digits digits = true ->
      is_sign sg = true -> off <> [] -> offset_body off = true ->
      normalize s = Return (base ++ chr_dot :: fix6 digits ++ sg :: off)) /\
  (frac_then_sign (replace_z s) = false ->
   normalize s = Return (replace_z s)) /\
  (exists s', normalize s = Return s' /\
              parse_iso_datetime fromisoformat s = parsed fromisoformat s') /\
  parse_iso_datetime fromisoformat (S' "2024-01-15T10:30:00.123456789Z")
  = parsed fromisoformat (S' "2024-01-15T10:30:00.123456+00:00") /\
  parse_iso_datetime IsoFormat.fromisoformat
    (S' "2024-01-15T10:30:00.123456789Z")
  = Return (mk_datetime 2024 1 15 10 30 0 123456 (Some 0%Z)).
Proof.
  split; [|split; [|split; [|split; [|split; [|split]]]]].
  - intros p ->. apply replace_z_suffix.
  - apply replace_z_other.
  - intros base digits sg off Hs Hb Hbn Hd Hdd Hsg Ho Hob.
    apply (normalize_shape s base digits off [] sg); try assumption.
    + now rewrite app_nil_r.
    + now left.
  - intros H. rewrite normalize_replace_z.
    now rewrite (match_groups_needs_sign _ H).
  - destruct (normalize_returns s) as [s' Hs']. exists s'. split; [assumption|].
    unfold parse_iso_datetime. now rewrite Hs'.
  - reflexivity.
  - reflexivity.
Qed.

(** The second example of the specification: a one-digit run is padded. *)
Lemma parse_iso_datetime_normalizes_witness :
  normalize (S' "2024-01-15T10:30:00.5+02:00")
  = Return (S' "2024-01-15T10:30:00.500000+02:00").
Proof.
  destruct (parse_iso_datetime_normalizes IsoFormat.fromisoformat
              (S' "2024-01-15T10:30:00.5+02:00")) as (_ & _ & H & _).
  apply (H (S' "2024-01-15T10:30:00") (S' "5") chr_plus (S' "02:00"));
    solve [reflexivity | discriminate].
Defined.

(** C7: on a string that already has exactly 6 fractional digits and an
    explicit signed numeric offset the normalizer changes nothing: the
    string parsed is the input itself, so the timestamp is the one the
    input denotes, and normalizing a second time gives the same string. *)
Theorem normalize_canonical_idempotent
    (fromisoformat : str -> option datetime)
    (base digits off : str) (sg : ascii) :
  base <> [] -> no_newline base = true ->
  length digits = 6 -> all_digits digits = true ->
  is_sign sg = true -> off <> [] -> numeric_offset off = true ->
  let s := base ++ chr_dot :: digits ++ sg :: off in
  normalize s = Return s /\
  parse_iso_datetime fromisoformat s = parsed fromisoformat s /\
  (s' <- normalize s ;; normalize s') = normalize s.
Proof.
  intros Hb Hbn Hlen Hdd Hsg Ho Hoff s.
  assert (Hn : normalize s = Return s).
  { assert (Hz : endswith s chr_Z = false).
    { replace s with ((base ++ chr_dot :: digits ++ [sg]) ++ off).
      - now apply numeric_offset_no_Z.
      - unfold s. rewrite <- app_assoc. simpl. do 2 f_equal.
        now rewrite <- app_assoc. }
    rewrite (normalize_shape s base digits off [] sg).
    - unfold fix6. rewrite Hlen. reflexivity.
    - rewrite (replace_z_other s Hz). unfold s. now rewrite app_nil_r.
    - assumption.
    - assumption.
    - intros ->. discriminate.
    - assumption.
    - assumption.
    - assumption.
    - now apply numeric_offset_body.
    - now left. }
  split; [assumption|]. split.
  - unfold parse_iso_datetime. now rewrite Hn.
  - rewrite Hn. exact Hn.
Qed.

Lemma normalize_canonical_idempotent_witness :
  normalize (S' "2024-01-15T10:30:00.123456+02:00")
  = Return (S' "2024-01-15T10:30:00.123456+02:00") /\
  parse_iso_datetime IsoFormat.fromisoformat
    (S' "2024-01-15T10:30:00.123456+02:00")
  = Return (mk_datetime 2024 1 15 10 30 0 123456 (Some 7200000000%Z)).
Proof.
  destruct (normalize_canonical_idempotent IsoFormat.fromisoformat
              (S' "2024-01-15T10:30:00") (S' "123456") (S' "02:00") chr_plus)
    as (H1 & H2 & _); try solve [reflexivity | discriminate].
  split; [exact H1|]. etransitivity; [exact H2|reflexivity].
Defined.

(** C8: a string with no fractional-seconds component and no trailing "Z"
    is not rewritten: the final parse step receives the input unchanged. *)
Theorem normalize_plain_untouched
    (fromisoformat : str -> option datetime) (s : str) :
  has_fraction s = false -> endswith s chr_Z = false ->
  normalize s = Return s /\
  parse_iso_datetime fromisoformat s = parsed fromisoformat s.
Proof.
  intros Hf Hz.
  assert (Hn : normalize s = Return s).
  { apply normalize_unchanged; [assumption|].
    now apply has_fraction_frac_then_sign. }
  split; [assumption|]. unfold parse_iso_datetime. now rewrite Hn.
Qed.

Lemma normalize_plain_untouched_witness :
  normalize (S' "2024-01-15T10:30:00+02:00")
  = Return (S' "2024-01-15T10:30:00+02:00") /\
  parse_iso_datetime IsoFormat.fromisoformat (S' "2024-01-15T10:30:00+02:00")
  = Return (mk_datetime 2024 1 15 10 30 0 0 (Some 7200000000%Z)).
Proof.
  pose proof (normalize_plain_untouched IsoFormat.fromisoformat
                (S' "2024-01-15T10:30:00+02:00") eq_refl eq_refl) as [H1 H2].
  split; [exact H1|]. rewrite H2. reflexivity.
Defined.

(** C10: the fractional run is rewritten only when a sign follows its
    digits.  A string that does not end in "Z" and in which no fractional
    run is directly followed by '+' or '-' and an offset reaches the final
    parse step unmodified: its run is neither truncated nor padded. *)
Theorem normalize_needs_sign
    (fromisoformat : str -> option datetime) (s : str) :
  endswith s chr_Z = false -> frac_then_sign s = false ->
  normalize s = Return s /\
  parse_iso_datetime fromisoformat s = parsed fromisoformat s.
Proof.
  intros Hz Hf.
  assert (Hn : normalize s = Return s) by now apply normalize_unchanged.
  split; [assumption|]. unfold parse_iso_datetime. now rewrite Hn.
Qed.

(** A nine-digit run and a one-digit run without offset stay as they are
    (and the strict parser then rejects them). *)
Lemma normalize_needs_sign_witness :
  normalize (S' "2024-01-15T10:30:00.123456789")
  = Return (S' "2024-01-15T10:30:00.123456789") /\
  parse_iso_datetime IsoFormat.fromisoformat (S' "2024-01-15T10:30:00.5")
  = Raise ValueError.
Proof.
  split.
  - apply (normalize_needs_sign IsoFormat.fromisoformat); reflexivity.
  - pose proof (normalize_needs_sign IsoFormat.fromisoformat
                  (S' "2024-01-15T10:30:00.5") eq_refl eq_refl) as [_ H].
    rewrite H. reflexivity.
Defined.

(** ** The flows: failures *)

Lemma status_not_200 (r : response) :
  status_code r <> 200%Z -> (status_code r =? 200)%Z = false.
Proof. intros H. now apply Z.eqb_neq. Qed.

Lemma status_200 (r : response) :
  status_code r = 200%Z -> (status_code r =? 200)%Z = true.
Proof. intros H. now apply Z.eqb_eq. Qed.

(** C3, as the code has it: when the evaluate call meets a transport
    failure or a status other than 200, [evaluate_submission] returns a
    result (it neither raises nor exits) with is_valid false, quality,
    uniqueness and score 0.0 and no details.  For a status other than 200
    the error text is the status message, which is never empty; for a
    transport failure it is the text of the exception, empty exactly when
    the exception has no message. *)
Theorem evaluate_submission_failure_returns (x : http_exchange) :
  (forall msg, x = TransportFailure msg ->
     exists res, evaluate_submission x = Return res /\
       is_valid res = JBool false /\
       quality res = JFloat float_zero /\
       uniqueness res = JFloat float_zero /\
       score res = JFloat float_zero /\
       details res = None /\
       error_text res = JStr msg /\
       (error_text res = JStr [] <-> msg = [])) /\
  (forall r, x = Responds r -> status_code r <> 200%Z ->
     exists res, evaluate_submission x = Return res /\
       is_valid res = JBool false /\
       quality res = JFloat float_zero /\
       uniqueness res = JFloat float_zero /\
       score res = JFloat float_zero /\
       details res = None /\
       error_text res
       = JStr (S' "Evaluate request failed with status "
               ++ str_of_int (status_code r)) /\
       error_text res <> JStr []).
Proof.
  split.
  - intros msg ->. exists (failed_evaluation msg).
    repeat split; simpl.
    + intros H. now injection H.
    + now intros ->.
  - intros r -> Hs.
    exists (failed_evaluation
              (S' "Evaluate request failed with status "
               ++ str_of_int (status_code r))).
    unfold evaluate_submission. simpl. rewrite (status_not_200 r Hs).
    repeat split. simpl. discriminate.
Qed.

Lemma evaluate_submission_failure_returns_witness :
  (exists res,
     evaluate_submission
       (Responds (mk_response 503 (S' "unavailable") (NotJson [])))
     = Return res /\
     is_valid res = JBool false /\ score res = JFloat float_zero /\
     error_text res = JStr (S' "Evaluate request failed with status 503")) /\
  (exists res,
     evaluate_submission (TransportFailure (S' "Connection refused"))
     = Return res /\
     is_valid res = JBool false /\ error_text res <> JStr []).
Proof.
  split.
  - pose (r := mk_response 503 (S' "unavailable") (NotJson [])).
    destruct (evaluate_submission_failure_returns (Responds r)) as [_ H2].
    destruct (H2 r eq_refl) as (res & Hres & Hv & _ & _ & Hsc & _ & He & _);
      [discriminate|].
    exists res. repeat split; assumption.
  - destruct (evaluate_submission_failure_returns
                (TransportFailure (S' "Connection refused"))) as [H1 _].
    destruct (H1 _ eq_refl) as (res & Hres & Hv & _ & _ & _ & _ & _ & He).
    exists res. repeat split; try assumption.
    intros H. apply He in H. discriminate.
Defined.

(** C3 as stated fails: a transport failure whose exception has no
    message (as [requests.exceptions.ConnectionError()] has none) gives a
    failure result with an empty error text. *)
Lemma evaluate_submission_empty_error_text :
  exists res,
    evaluate_submission (TransportFailure []) = Return res /\
    is_valid res = JBool false /\
    error_text res = JStr [].
Proof. exists (failed_evaluation []). repeat split. Qed.

(** C4: the Historical Data Fetcher and the Data Submitter end the process
    with [sys.exit(1)], and return nothing, on a transport failure, on a
    status other than 200, on a body that is not JSON and, for the
    fetcher, on a ValueError raised while the body is decoded (an
    unparsable chatStartOn or chatEndedOn). *)
Theorem fatal_flows_exit
    (fromisoformat : str -> option datetime)
    (stdout_encodes : str -> bool) (x : http_exchange) :
  (forall msg, x = TransportFailure msg ->
     get_submission_historical_data fromisoformat stdout_encodes x = Exit 1 /\
     submit_data x = Exit 1) /\
  (forall r, x = Responds r -> status_code r <> 200%Z ->
     get_submission_historical_data fromisoformat stdout_encodes x = Exit 1 /\
     submit_data x = Exit 1) /\
  (forall r msg, x = Responds r -> status_code r = 200%Z ->
     json_body r = NotJson msg ->
     get_submission_historical_data fromisoformat stdout_encodes x = Exit 1 /\
     submit_data x = Exit 1) /\
  (forall r body e, x = Responds r -> status_code r = 200%Z ->
     json_body r = Json body ->
     decode_submission_history fromisoformat stdout_encodes body = Raise e ->
     is_ValueError e = true ->
     get_submission_historical_data fromisoformat stdout_encodes x = Exit 1) /\
  (forall o s,
     lookup (S' "chatStartOn") o = Some (JStr s) ->
     parse_iso_datetime fromisoformat s = Raise ValueError ->
     decode_chat fromisoformat (JObj o) = Raise ValueError) /\
  (forall o s dt s',
     lookup (S' "chatStartOn") o = Some (JStr s) ->
     parse_iso_datetime fromisoformat s = Return dt ->
     lookup (S' "chatEndedOn") o = Some (JStr s') ->
     parse_iso_datetime fromisoformat s' = Raise ValueError ->
     decode_chat fromisoformat (JObj o) = Raise ValueError).
Proof.
  split; [|split; [|split; [|split; [|split]]]].
  - intros msg ->. split; reflexivity.
  - intros r -> Hs. unfold get_submission_historical_data, submit_data.
    simpl. rewrite (status_not_200 r Hs). split; reflexivity.
  - intros r msg -> Hs Hb.
    unfold get_submission_historical_data, submit_data, response_json.
    simpl. rewrite (status_200 r Hs), Hb. split; reflexivity.
  - intros r body e -> Hs Hb Hd He.
    unfold get_submission_historical_data, response_json. simpl.
    rewrite (status_200 r Hs), Hb. simpl. rewrite Hd. simpl. now rewrite He.
  - intros o s H1 Hp. unfold decode_chat, py_get, py_index.
    rewrite H1.
    destruct (lookup (S' "participantCount") o),
      (lookup (S' "chatCount") o), (lookup (S' "chatLength") o);
      simpl; now rewrite Hp.
  - intros o s dt s' H1 Hp H2 Hp'. unfold decode_chat, py_get, py_index.
    rewrite H1, H2.
    destruct (lookup (S' "participantCount") o),
      (lookup (S' "chatCount") o), (lookup (S' "chatLength") o);
      simpl; rewrite Hp; simpl; now rewrite Hp'.
Qed.

Lemma fatal_flows_exit_witness :
  get_submission_historical_data IsoFormat.fromisoformat utf8_stdout
    (Responds (ok_response
       (JObj [(S' "chatHistories",
               JArr [JObj [(S' "chats",
                            JArr [JObj [(S' "chatStartOn", JStr (S' "nope"));
                                        (S' "chatEndedOn",
                                         JStr (S' "2024-01-15T11:00:00Z"))]])]])])))
  = Exit 1 /\
  submit_data (Responds (mk_response 500 (S' "error") (NotJson []))) = Exit 1.
Proof.
  split.
  - match goal with
    | |- get_submission_historical_data _ _ (Responds (ok_response ?b)) = _ =>
        destruct (fatal_flows_exit IsoFormat.fromisoformat utf8_stdout
                    (Responds (ok_response b))) as (_ & _ & _ & H & _);
        apply (H (ok_response b) b ValueError); reflexivity
    end.
  - pose (r := mk_response 500 (S' "error") (NotJson [])).
    destruct (fatal_flows_exit IsoFormat.fromisoformat utf8_stdout (Responds r))
      as (_ & H & _).
    destruct (H r eq_refl) as [_ Hs]; [discriminate|exact Hs].
Defined.

(** ** The flows: decoding a 200 response *)

Lemma py_get_field (o : list (str * json)) (key : str) (default : json) :
  py_get (JObj o) key default = Return (field o key default).
Proof. unfold py_get, field. now destruct (lookup key o). Qed.

Lemma bind_Return {A B} (a : A) (f : A -> outcome B) :
  (x <- Return a ;; f x) = f a.
Proof. reflexivity. Qed.

Lemma bind_assoc {A B C} (m : outcome A) (f : A -> outcome B)
    (g : B -> outcome C) :
  (y <- (x <- m ;; f x) ;; g y) = (x <- m ;; y <- f x ;; g y).
Proof. now destruct m. Qed.

Section HistoryFacts.
Variable fromisoformat : str -> option datetime.
Variable stdout_encodes : str -> bool.

Lemma decode_submission_history_obj (o : list (str * json)) :
  decode_submission_history fromisoformat stdout_encodes (JObj o) =
  (chat_histories <- chat_histories_of fromisoformat o ;;
   last_submission <- decode_last_submission fromisoformat stdout_encodes (JObj o) ;;
   Return (mk_SubmissionHistory
             (field o (S' "isValid") (JBool false))
             (field o (S' "errorText") (JStr []))
             last_submission chat_histories)).
Proof.
  unfold decode_submission_history, chat_histories_of.
  rewrite !py_get_field, bind_Return, bind_assoc.
  reflexivity.
Qed.

Lemma historical_flow_200 (r : response) (body : json) :
  status_code r = 200%Z -> json_body r = Json body ->
  get_submission_historical_data fromisoformat stdout_encodes (Responds r) =
  try_except
    (try_except (decode_submission_history fromisoformat stdout_encodes body)
       is_ValueError (fun _ => sys_exit 1))
    is_RequestException (fun _ => sys_exit 1).
Proof.
  intros Hs Hb. unfold get_submission_historical_data, response_json.
  simpl. now rewrite (status_200 r Hs), Hb.
Qed.

Lemma parse_iso_datetime_cases (s : str) :
  (exists dt, parse_iso_datetime fromisoformat s = Return dt) \/
  parse_iso_datetime fromisoformat s = Raise ValueError.
Proof.
  unfold parse_iso_datetime. destruct (normalize_returns s) as [s' ->].
  simpl. destruct (fromisoformat s'); eauto.
Qed.

(** [decode_last_submission] on a string value. *)
Lemma decode_last_submission_string (o : list (str * json)) (s : str) :
  lookup (S' "lastSubmission") o = Some (JStr s) -> s <> [] ->
  decode_last_submission fromisoformat stdout_encodes (JObj o) =
  try_except
    (dt <- parse_iso_datetime fromisoformat s ;; Return (Some dt))
    is_ValueError
    (fun _ => _ <- py_print stdout_encodes (diagnostic s) ;; Return None).
Proof.
  intros H Hs. unfold decode_last_submission.
  rewrite py_get_field, bind_Return. unfold field. rewrite H.
  destruct s as [|c s]; [congruence|]. reflexivity.
Qed.

Lemma decode_last_submission_dropped (o : list (str * json)) :
  last_submission_dropped fromisoformat stdout_encodes o ->
  decode_last_submission fromisoformat stdout_encodes (JObj o) = Return None.
Proof.
  intros [H|[(v & H & Hv)|(s & H & Hp & He)]].
  - unfold decode_last_submission. rewrite py_get_field. unfold field.
    now rewrite H.
  - unfold decode_last_submission. rewrite py_get_field. unfold field.
    rewrite H. simpl. now rewrite Hv.
  - destruct s as [|c s].
    + unfold decode_last_submission. rewrite py_get_field. unfold field.
      now rewrite H.
    + rewrite (decode_last_submission_string o (c :: s) H) by discriminate.
      rewrite Hp. simpl. unfold py_print. now rewrite He.
Qed.

Lemma decode_last_submission_null (o : list (str * json)) :
  decode_last_submission fromisoformat stdout_encodes
    (JObj ((S' "lastSubmission", JNull) :: o)) = Return None.
Proof. reflexivity. Qed.

Lemma decode_last_submission_parsed (o : list (str * json)) (s : str)
    (dt : datetime) :
  lookup (S' "lastSubmission") o = Some (JStr s) -> s <> [] ->
  parse_iso_datetime fromisoformat s = Return dt ->
  decode_last_submission fromisoformat stdout_encodes (JObj o)
  = Return (Some dt).
Proof.
  intros H Hs Hp. rewrite (decode_last_submission_string o s H Hs).
  now rewrite Hp.
Qed.

(** A timestamp in the result comes from a non-empty string that the
    normalizer parsed. *)
Lemma decode_last_submission_some (o : list (str * json)) (dt : datetime) :
  decode_last_submission fromisoformat stdout_encodes (JObj o)
  = Return (Some dt) ->
  exists s, lookup (S' "lastSubmission") o = Some (JStr s) /\ s <> [] /\
            parse_iso_datetime fromisoformat s = Return dt.
Proof.
  unfold decode_last_submission. rewrite py_get_field, bind_Return.
  unfold field. destruct (lookup (S' "lastSubmission") o) as [v|];
    [|discriminate].
  destruct (truthy v) eqn:Ht; [|discriminate].
  destruct v; try discriminate.
  intros H. exists s. split; [reflexivity|]. split.
  - intros ->. discriminate.
  - cbn [parse_iso_datetime_value] in H.
    destruct (parse_iso_datetime fromisoformat s) as [dt'|e|c]; simpl in H.
    + now injection H as ->.
    + destruct (is_ValueError e); [|discriminate].
      unfold py_print in H.
      destruct (stdout_encodes _); simpl in H; discriminate.
    + discriminate.
Qed.

Lemma try_except_Return {A} (m : outcome A) (cls : exn -> bool)
    (handler : exn -> outcome A) (a : A) :
  (forall e b, handler e <> Return b) ->
  try_except m cls handler = Return a -> m = Return a.
Proof.
  intros Hh. destruct m as [x|e|c]; simpl; try discriminate; [auto|].
  destruct (cls e); [|discriminate]. intros H. now apply Hh in H.
Qed.
End HistoryFacts.

(** C5, as the code has it: in a 200 response of the historical-data call
    whose lastSubmission is absent, falsy (null, empty) or a string, the
    field is parsed by the normalizer exactly when it is a non-empty
    string, and a timestamp in the result always comes from such a
    string.  When the field is missing, empty, or a string that fails to
    parse and whose diagnostic line can be written to standard output,
    the result has last_submission None and the rest of the response is
    decoded exactly as if the field were null. *)
Theorem last_submission_degrades
    (fromisoformat : str -> option datetime)
    (stdout_encodes : str -> bool)
    (r : response) (o : list (str * json)) :
  status_code r = 200%Z -> json_body r = Json (JObj o) ->
  (last_submission_dropped fromisoformat stdout_encodes o ->
     get_submission_historical_data fromisoformat stdout_encodes (Responds r)
     = get_submission_historical_data fromisoformat stdout_encodes
         (Responds (mk_response 200 (text r)
                      (Json (JObj ((S' "lastSubmission", JNull) :: o))))) /\
     (forall chs, chat_histories_of fromisoformat o = Return chs ->
        get_submission_historical_data fromisoformat stdout_encodes
          (Responds r)
        = Return (mk_SubmissionHistory
                    (field o (S' "isValid") (JBool false))
                    (field o (S' "errorText") (JStr []))
                    None chs)) /\
     (forall res,
        get_submission_historical_data fromisoformat stdout_encodes
          (Responds r) = Return res ->
        last_submission res = None)) /\
  (forall s dt chs,
     lookup (S' "lastSubmission") o = Some (JStr s) -> s <> [] ->
     parse_iso_datetime fromisoformat s = Return dt ->
     chat_histories_of fromisoformat o = Return chs ->
     get_submission_historical_data fromisoformat stdout_encodes (Responds r)
     = Return (mk_SubmissionHistory
                 (field o (S' "isValid") (JBool false))
                 (field o (S' "errorText") (JStr []))
                 (Some dt) chs)) /\
  (forall s,
     (exists dt, parse_iso_datetime fromisoformat s = Return dt) \/
     parse_iso_datetime fromisoformat s = Raise ValueError) /\
  (forall res dt,
     get_submission_historical_data fromisoformat stdout_encodes (Responds r)
     = Return res ->
     last_submission res = Some dt ->
     exists s, lookup (S' "lastSubmission") o = Some (JStr s) /\ s <> [] /\
               parse_iso_datetime fromisoformat s = Return dt).
Proof.
  intros Hs Hb.
  rewrite (historical_flow_200 fromisoformat stdout_encodes r (JObj o) Hs Hb).
  rewrite decode_submission_history_obj.
  split; [|split; [|split]].
  - intros Hd.
    rewrite (decode_last_submission_dropped fromisoformat stdout_encodes o Hd).
    split; [|split].
    + rewrite (historical_flow_200 fromisoformat stdout_encodes
                 (mk_response 200 (text r)
                    (Json (JObj ((S' "lastSubmission", JNull) :: o))))
                 (JObj ((S' "lastSubmission", JNull) :: o)) eq_refl eq_refl).
      rewrite decode_submission_history_obj, decode_last_submission_null.
      reflexivity.
    + intros chs ->. reflexivity.
    + intros res.
      destruct (chat_histories_of fromisoformat o) as [chs|e|c]; simpl.
      * intros H. injection H as <-. reflexivity.
      * destruct (is_ValueError e); simpl; [discriminate|].
        destruct (is_RequestException e); discriminate.
      * discriminate.
  - intros s dt chs Hl Hne Hp ->.
    rewrite (decode_last_submission_parsed fromisoformat stdout_encodes
               o s dt Hl Hne Hp).
    reflexivity.
  - apply parse_iso_datetime_cases.
  - intros res dt Hres Hls.
    apply try_except_Return in Hres; [|discriminate].
    apply try_except_Return in Hres; [|discriminate].
    destruct (chat_histories_of fromisoformat o) as [chs|e|c];
      cbn [bind] in Hres; try discriminate.
    destruct (decode_last_submission fromisoformat stdout_encodes (JObj o))
      as [ls|e|c] eqn:El; cbn [bind] in Hres; try discriminate.
    injection Hres as <-. cbn [last_submission] in Hls. subst ls.
    exact (decode_last_submission_some fromisoformat stdout_encodes o dt El).
Qed.

Lemma last_submission_degrades_witness :
  get_submission_historical_data IsoFormat.fromisoformat utf8_stdout
    (Responds (ok_response
       (JObj [(S' "isValid", JBool true);
              (S' "lastSubmission", JStr (S' "yesterday"))])))
  = Return (mk_SubmissionHistory (JBool true) (JStr []) None []) /\
  get_submission_historical_data IsoFormat.fromisoformat utf8_stdout
    (Responds (ok_response (JObj [(S' "isValid", JBool true)])))
  = Return (mk_SubmissionHistory (JBool true) (JStr []) None []) /\
  get_submission_historical_data IsoFormat.fromisoformat utf8_stdout
    (Responds (ok_response
       (JObj [(S' "lastSubmission",
               JStr (S' "2024-01-15T10:30:00.5Z"))])))
  = Return (mk_SubmissionHistory (JBool false) (JStr [])
              (Some (mk_datetime 2024 1 15 10 30 0 500000 (Some 0%Z))) []).
Proof.
  split; [|split].
  - match goal with
    | |- get_submission_historical_data _ _
           (Responds (ok_response (JObj ?o))) = _ =>
        destruct (last_submission_degrades IsoFormat.fromisoformat utf8_stdout
                    (ok_response (JObj o)) o eq_refl eq_refl) as [H _];
        destruct H as (_ & H & _);
        [right; right; exists (S' "yesterday"); repeat split
        |exact (H [] eq_refl)]
    end.
  - match goal with
    | |- get_submission_historical_data _ _
           (Responds (ok_response (JObj ?o))) = _ =>
        destruct (last_submission_degrades IsoFormat.fromisoformat utf8_stdout
                    (ok_response (JObj o)) o eq_refl eq_refl) as [H _];
        destruct H as (_ & H & _);
        [left; reflexivity|exact (H [] eq_refl)]
    end.
  - match goal with
    | |- get_submission_historical_data _ _
           (Responds (ok_response (JObj ?o))) = _ =>
        destruct (last_submission_degrades IsoFormat.fromisoformat utf8_stdout
                    (ok_response (JObj o)) o eq_refl eq_refl) as (_ & H & _);
        exact (H (S' "2024-01-15T10:30:00.5Z") _ []
                 eq_refl ltac:(discriminate) eq_refl eq_refl)
    end.
Defined.

(** C5 as stated fails: a lastSubmission that is a number does not
    degrade to None; the call raises AttributeError (a number has no
    [endswith]) and the whole response is lost. *)
Lemma last_submission_number_aborts :
  let body :=
    JObj [(S' "isValid", JBool true);
          (S' "errorText", JStr []);
          (S' "lastSubmission", JInt 1705314600);
          (S' "chatHistories", JArr [])] in
  get_submission_historical_data IsoFormat.fromisoformat utf8_stdout
    (Responds (ok_response body)) = Raise AttributeError /\
  ~ (exists res,
       get_submission_historical_data IsoFormat.fromisoformat utf8_stdout
         (Responds (ok_response body)) = Return res).
Proof.
  cbv zeta. split.
  - vm_compute. reflexivity.
  - intros [res H]. vm_compute in H. discriminate.
Qed.

Section EvaluateFacts.

Lemma evaluate_flow_200 (r : response) (body : json) :
  status_code r = 200%Z -> json_body r = Json body ->
  evaluate_submission (Responds r) =
  try_except (decode_evaluation body) is_RequestException
    (fun e => Return (failed_evaluation (exn_str e))).
Proof.
  intros Hs Hb. unfold evaluate_submission, response_json.
  simpl. now rewrite (status_200 r Hs), Hb.
Qed.

Lemma decode_evaluation_obj (o : list (str * json)) :
  decode_evaluation (JObj o) =
  (details <- decode_details (JObj o) ;;
   Return (mk_EvaluateSubmissionResponse
             (field o (S' "isValid") (JBool false))
             (field o (S' "errorText") (JStr []))
             (field o (S' "quality") (JFloat float_zero))
             (field o (S' "uniqueness") (JFloat float_zero))
             (field o (S' "score") (JFloat float_zero))
             details)).
Proof.
  unfold decode_evaluation. rewrite !py_get_field, !bind_Return.
  destruct (decode_details (JObj o)); reflexivity.
Qed.

Lemma decode_details_falsy (o : list (str * json)) :
  truthy (field o (S' "details") JNull) = false ->
  decode_details (JObj o) = Return None.
Proof.
  intros H. unfold decode_details. rewrite py_get_field, bind_Return.
  now rewrite H.
Qed.

Lemma decode_details_object_obj (d : list (str * json)) :
  decode_details_object (JObj d) =
  (summaries <- py_iter (field d (S' "chatSummaries") (JArr [])) ;;
   chat_summaries <- for_each decode_chat_summary summaries ;;
   Return (mk_EvaluationDetails
             (field d (S' "totalMessages") (JInt 0))
             (field d (S' "uniqueMessages") (JInt 0))
             (field d (S' "llmReasoning") JNull)
             chat_summaries)).
Proof.
  unfold decode_details_object. rewrite !py_get_field, bind_Return.
  reflexivity.
Qed.

(** The result of a 200 response whose [details] decode to [det]. *)
Lemma evaluate_flow_result (r : response) (o : list (str * json))
    (det : option EvaluationDetails) :
  status_code r = 200%Z -> json_body r = Json (JObj o) ->
  decode_details (JObj o) = Return det ->
  evaluate_submission (Responds r) =
  Return (mk_EvaluateSubmissionResponse
            (field o (S' "isValid") (JBool false))
            (field o (S' "errorText") (JStr []))
            (field o (S' "quality") (JFloat float_zero))
            (field o (S' "uniqueness") (JFloat float_zero))
            (field o (S' "score") (JFloat float_zero))
            det).
Proof.
  intros Hs Hb Hd. rewrite (evaluate_flow_200 r (JObj o) Hs Hb).
  rewrite decode_evaluation_obj, Hd. reflexivity.
Qed.
End EvaluateFacts.

(** C6: a 200 response of the evaluate call without a [details] key gives
    a result whose details are None; one whose [details] object has
    [chatSummaries: []] gives a result whose details are present, with an
    empty chat_summaries list. *)
Theorem evaluate_details_optionality (r : response) (o : list (str * json)) :
  status_code r = 200%Z -> json_body r = Json (JObj o) ->
  (lookup (S' "details") o = None ->
     exists res, evaluate_submission (Responds r) = Return res /\
                 details res = None) /\
  (forall d,
     lookup (S' "details") o = Some (JObj d) ->
     lookup (S' "chatSummaries") d = Some (JArr []) ->
     exists res det, evaluate_submission (Responds r) = Return res /\
                     details res = Some det /\
                     chat_summaries det = [] /\
                     total_messages det = field d (S' "totalMessages") (JInt 0) /\
                     unique_messages det
                     = field d (S' "uniqueMessages") (JInt 0) /\
                     llm_reasoning det = field d (S' "llmReasoning") JNull).
Proof.
  intros Hs Hb. split.
  - intros Hl. eexists. split.
    + apply (evaluate_flow_result r o None Hs Hb).
      apply decode_details_falsy. unfold field. now rewrite Hl.
    + reflexivity.
  - intros d Hl Hc. eexists. eexists. split; [|split].
    + apply (evaluate_flow_result r o
               (Some (mk_EvaluationDetails
                        (field d (S' "totalMessages") (JInt 0))
                        (field d (S' "uniqueMessages") (JInt 0))
                        (field d (S' "llmReasoning") JNull) [])) Hs Hb).
      unfold decode_details. rewrite py_get_field, bind_Return.
      unfold field at 1 2. rewrite Hl.
      assert (Ht : truthy (JObj d) = true) by (destruct d; [discriminate|reflexivity]).
      rewrite Ht, decode_details_object_obj.
      unfold field at 1. rewrite Hc. reflexivity.
    + reflexivity.
    + repeat split.
Qed.

Lemma evaluate_details_optionality_witness :
  (exists res,
     evaluate_submission
       (Responds (ok_response (JObj [(S' "isValid", JBool true)])))
     = Return res /\ details res = None) /\
  (exists res det,
     evaluate_submission
       (Responds (ok_response
          (JObj [(S' "details", JObj [(S' "chatSummaries", JArr [])])])))
     = Return res /\ details res = Some det /\ chat_summaries det = []).
Proof.
  split.
  - match goal with
    | |- exists _, evaluate_submission (Responds (ok_response (JObj ?o))) = _ /\ _ =>
        destruct (evaluate_details_optionality (ok_response (JObj o)) o
                    eq_refl eq_refl) as [H _];
        exact (H eq_refl)
    end.
  - match goal with
    | |- exists _ _, evaluate_submission (Responds (ok_response (JObj ?o))) = _ /\ _ =>
        destruct (evaluate_details_optionality (ok_response (JObj o)) o
                    eq_refl eq_refl) as [_ H];
        destruct (H [(S' "chatSummaries", JArr [])] eq_refl eq_refl)
          as (res & det & H1 & H2 & H3 & _);
        exists res, det; repeat split; assumption
    end.
Defined.

Lemma str_eqb_eq (a b : str) : str_eqb a b = true <-> a = b.
Proof.
  revert b. induction a as [|x a IH]; intros [|y b]; simpl;
    try (split; [discriminate|discriminate]); [tauto|].
  rewrite andb_true_iff, Ascii.eqb_eq, IH. split.
  - now intros [-> ->].
  - intros H. injection H as -> ->. now split.
Qed.

Lemma lookup_without (key k : str) (o : list (str * json)) :
  k <> key -> lookup k (without key o) = lookup k o.
Proof.
  intros Hk. induction o as [|[k0 v0] o IH]; simpl; [reflexivity|].
  destruct (str_eqb k0 key) eqn:E; simpl.
  - apply str_eqb_eq in E. subst k0.
    destruct (str_eqb key k) eqn:E'; [|assumption].
    apply str_eqb_eq in E'. congruence.
  - now rewrite IH.
Qed.

Lemma lookup_without_same (key : str) (o : list (str * json)) :
  lookup key (without key o) = None.
Proof.
  induction o as [|[k0 v0] o IH]; simpl; [reflexivity|].
  destruct (str_eqb k0 key) eqn:E; simpl; [assumption|]. now rewrite E.
Qed.

(** C9: in a 200 response of the evaluate call, a [details] key bound to a
    falsy value (null, the empty object) gives details None, and the
    whole outcome is the one of the same response without the [details]
    key: the two cannot be told apart. *)
Theorem evaluate_falsy_details_as_missing
    (r r' : response) (o : list (str * json)) (v : json) :
  status_code r = 200%Z -> json_body r = Json (JObj o) ->
  status_code r' = 200%Z ->
  json_body r' = Json (JObj (without (S' "details") o)) ->
  lookup (S' "details") o = Some v -> truthy v = false ->
  (exists res, evaluate_submission (Responds r) = Return res /\
               details res = None) /\
  evaluate_submission (Responds r) = evaluate_submission (Responds r') /\
  truthy JNull = false /\ truthy (JObj []) = false.
Proof.
  intros Hs Hb Hs' Hb' Hl Hv.
  assert (H1 := evaluate_flow_result r o None Hs Hb).
  assert (H2 := evaluate_flow_result r' _ None Hs' Hb').
  rewrite H1, H2.
  - split; [eexists; split; reflexivity|]. split; [|split; reflexivity].
    unfold field. rewrite !lookup_without by discriminate. reflexivity.
  - apply decode_details_falsy. unfold field.
    now rewrite lookup_without_same.
  - apply decode_details_falsy. unfold field. now rewrite Hl.
Qed.

Lemma evaluate_falsy_details_as_missing_witness :
  evaluate_submission
    (Responds (ok_response (JObj [(S' "details", JObj []);
                                  (S' "isValid", JBool true)])))
  = evaluate_submission
      (Responds (ok_response (JObj [(S' "isValid", JBool true)]))) /\
  exists res,
    evaluate_submission
      (Responds (ok_response (JObj [(S' "details", JNull);
                                    (S' "isValid", JBool true)])))
    = Return res /\ details res = None.
Proof.
  split.
  - exact (proj1 (proj2 (evaluate_falsy_details_as_missing
             (ok_response (JObj [(S' "details", JObj []);
                                 (S' "isValid", JBool true)]))
             (ok_response (JObj [(S' "isValid", JBool true)]))
             [(S' "details", JObj []); (S' "isValid", JBool true)]
             (JObj [])
             eq_refl eq_refl eq_refl eq_refl eq_refl eq_refl))).
  - exact (proj1 (evaluate_falsy_details_as_missing
             (ok_response (JObj [(S' "details", JNull);
                                 (S' "isValid", JBool true)]))
             (ok_response (JObj [(S' "isValid", JBool true)]))
             [(S' "details", JNull); (S' "isValid", JBool true)]
             JNull
             eq_refl eq_refl eq_refl eq_refl eq_refl eq_refl)).
Defined.

(** ** The flows: missing fields *)

Ltac absent_field :=
  let o := fresh "o" in
  let H := fresh "H" in
  intros o H;
  repeat first
    [ progress unfold decode_submission_history, decode_last_submission,
        decode_chat_history, decode_chat, decode_evaluation, decode_details,
        decode_details_object, decode_chat_summary, decode_submit_data,
        py_index
    | progress rewrite !py_get_field ];
  unfold field;
  cbn [lookup str_eqb S' list_ascii_of_string Ascii.eqb Bool.eqb andb] in *;
  rewrite ?H; reflexivity.

(** C2, as the code has it: every field that the three decoders read with
    a default resolves to that default when it is absent, because an
    object without the key is decoded exactly as the object with the key
    bound to the default (false for booleans, 0 for counts, 0.0 for
    scores, the empty string for text, null or the empty list for
    optional structures); an entry of chatHistories without sourceChatId
    still decodes; the empty object decodes to the defaults in each
    flow.  chatStartOn and chatEndedOn of a chat entry have no default:
    without one of them the decoding raises KeyError. *)
Theorem absent_fields_default
    (fromisoformat : str -> option datetime)
    (stdout_encodes : str -> bool) :
  (* historical data *)
  absent_as_default (decode_submission_history fromisoformat stdout_encodes)
    (S' "isValid") (JBool false) /\
  absent_as_default (decode_submission_history fromisoformat stdout_encodes)
    (S' "errorText") (JStr []) /\
  absent_as_default (decode_submission_history fromisoformat stdout_encodes)
    (S' "lastSubmission") JNull /\
  absent_as_default (decode_submission_history fromisoformat stdout_encodes)
    (S' "chatHistories") (JArr []) /\
  absent_as_default (decode_chat_history fromisoformat)
    (S' "chats") (JArr []) /\
  absent_as_default (decode_chat fromisoformat)
    (S' "participantCount") (JInt 0) /\
  absent_as_default (decode_chat fromisoformat) (S' "chatCount") (JInt 0) /\
  absent_as_default (decode_chat fromisoformat) (S' "chatLength") (JInt 0) /\
  (forall o chats,
     lookup (S' "sourceChatId") o = None ->
     (entries <- py_iter (field o (S' "chats") (JArr [])) ;;
      for_each (decode_chat fromisoformat) entries) = Return chats ->
     exists ch, decode_chat_history fromisoformat (JObj o) = Return ch /\
                chat_list ch = chats) /\
  (* evaluate *)
  absent_as_default decode_evaluation (S' "isValid") (JBool false) /\
  absent_as_default decode_evaluation (S' "errorText") (JStr []) /\
  absent_as_default decode_evaluation (S' "quality") (JFloat float_zero) /\
  absent_as_default decode_evaluation (S' "uniqueness") (JFloat float_zero) /\
  absent_as_default decode_evaluation (S' "score") (JFloat float_zero) /\
  absent_as_default decode_evaluation (S' "details") JNull /\
  absent_as_default decode_details_object (S' "totalMessages") (JInt 0) /\
  absent_as_default decode_details_object (S' "uniqueMessages") (JInt 0) /\
  absent_as_default decode_details_object (S' "llmReasoning") JNull /\
  absent_as_default decode_details_object (S' "chatSummaries") (JArr []) /\
  absent_as_default decode_chat_summary (S' "sourceChatId") (JStr []) /\
  absent_as_default decode_chat_summary (S' "messageCount") (JInt 0) /\
  absent_as_default decode_chat_summary
    (S' "chatQuality") (JFloat float_zero) /\
  absent_as_default decode_chat_summary
    (S' "chatUniqueness") (JFloat float_zero) /\
  (* submit data *)
  absent_as_default decode_submit_data (S' "isValid") (JBool false) /\
  absent_as_default decode_submit_data (S' "errorText") (JStr []) /\
  (* the empty object *)
  get_submission_historical_data fromisoformat stdout_encodes
    (Responds (ok_response (JObj [])))
  = Return (mk_SubmissionHistory (JBool false) (JStr []) None []) /\
  evaluate_submission (Responds (ok_response (JObj [])))
  = Return (mk_EvaluateSubmissionResponse (JBool false) (JStr [])
              (JFloat float_zero) (JFloat float_zero) (JFloat float_zero)
              None) /\
  submit_data (Responds (ok_response (JObj [])))
  = Return (mk_SubmitDataResponse (JBool false) (JStr [])) /\
  decode_chat_summary (JObj [])
  = Return (mk_ChatEvaluationSummary (JStr []) (JInt 0)
              (JFloat float_zero) (JFloat float_zero)) /\
  decode_details_object (JObj [])
  = Return (mk_EvaluationDetails (JInt 0) (JInt 0) JNull []) /\
  (* the two required fields *)
  (forall o, lookup (S' "chatStartOn") o = None ->
     decode_chat fromisoformat (JObj o)
     = Raise (KeyError (S' "chatStartOn"))) /\
  (forall o s dt,
     lookup (S' "chatStartOn") o = Some (JStr s) ->
     parse_iso_datetime fromisoformat s = Return dt ->
     lookup (S' "chatEndedOn") o = None ->
     decode_chat fromisoformat (JObj o)
     = Raise (KeyError (S' "chatEndedOn"))).
Proof.
  repeat match goal with |- _ /\ _ => split end;
    try absent_field; try reflexivity.
  - intros o chats Hl Hc. unfold decode_chat_history.
    rewrite !py_get_field, bind_Return.
    exists (mk_ChatHistory (field o (S' "sourceChatId") (JInt 0)) chats).
    split; [|reflexivity].
    destruct (py_iter (field o (S' "chats") (JArr []))) as [l|e|c];
      simpl in *; try discriminate.
    destruct (for_each (decode_chat fromisoformat) l) as [cs|e|c];
      simpl in *; try discriminate.
    now injection Hc as ->.
  - intros o s dt H1 Hp H2. unfold decode_chat. rewrite !py_get_field.
    unfold py_index. rewrite H1, H2. simpl. now rewrite Hp.
Qed.

Lemma absent_fields_default_witness :
  decode_chat IsoFormat.fromisoformat
    (JObj [(S' "chatStartOn", JStr (S' "2024-01-15T10:00:00Z"));
           (S' "chatEndedOn", JStr (S' "2024-01-15T11:00:00.25+00:00"))])
  = decode_chat IsoFormat.fromisoformat
      (JObj [(S' "chatCount", JInt 0);
             (S' "chatStartOn", JStr (S' "2024-01-15T10:00:00Z"));
             (S' "chatEndedOn", JStr (S' "2024-01-15T11:00:00.25+00:00"))]) /\
  decode_chat IsoFormat.fromisoformat
    (JObj [(S' "chatEndedOn", JStr (S' "2024-01-15T11:00:00Z"))])
  = Raise (KeyError (S' "chatStartOn")).
Proof.
  destruct (absent_fields_default IsoFormat.fromisoformat utf8_stdout)
    as (_ & _ & _ & _ & _ & _ & Hcount & _).
  split.
  - apply Hcount. reflexivity.
  - pose proof (absent_fields_default IsoFormat.fromisoformat utf8_stdout) as H'.
    repeat match type of H' with
           | (forall o, lookup _ o = None -> decode_chat _ _ = _) /\ _ =>
               destruct H' as [H' _]
           | _ /\ _ => destruct H' as [_ H']
           end.
    apply H'. reflexivity.
Defined.

(** C2 as stated fails: a chat entry of a historical-data response that
    lacks chatStartOn does not decode to a result with a default in
    place; the call raises KeyError.  With the field the same response
    decodes. *)
Lemma missing_chat_start_on_raises :
  let chat_without :=
    JObj [(S' "participantCount", JInt 2); (S' "chatCount", JInt 5);
          (S' "chatLength", JInt 120);
          (S' "chatEndedOn", JStr (S' "2024-01-15T11:00:00Z"))] in
  let chat_with :=
    JObj [(S' "participantCount", JInt 2); (S' "chatCount", JInt 5);
          (S' "chatLength", JInt 120);
          (S' "chatStartOn", JStr (S' "2024-01-15T10:00:00Z"));
          (S' "chatEndedOn", JStr (S' "2024-01-15T11:00:00Z"))] in
  let body chat :=
    JObj [(S' "isValid", JBool true);
          (S' "chatHistories",
           JArr [JObj [(S' "sourceChatId", JStr (S' "c1"));
                       (S' "chats", JArr [chat])]])] in
  (exists res,
     get_submission_historical_data IsoFormat.fromisoformat utf8_stdout
       (Responds (ok_response (body chat_with))) = Return res) /\
  get_submission_historical_data IsoFormat.fromisoformat utf8_stdout
    (Responds (ok_response (body chat_without)))
  = Raise (KeyError (S' "chatStartOn")) /\
  ~ (exists res,
       get_submission_historical_data IsoFormat.fromisoformat utf8_stdout
         (Responds (ok_response (body chat_without))) = Return res).
Proof.
  cbv zeta. split; [|split].
  - eexists. vm_compute. reflexivity.
  - vm_compute. reflexivity.
  - intros [res H]. vm_compute in H. discriminate.
Qed.

(** ** More on the normalizer *)

Section NormalizerExtras.
Import Re ReFacts.

Lemma fix6_length (d : str) : length (fix6 d) = 6.
Proof.
  unfold fix6. destruct (6 <? length d) eqn:E1.
  - apply Nat.ltb_lt in E1. rewrite firstn_length_le; lia.
  - apply Nat.ltb_ge in E1. destruct (length d <? 6) eqn:E2.
    + apply Nat.ltb_lt in E2. rewrite length_app, repeat_length. lia.
    + apply Nat.ltb_ge in E2. lia.
Qed.

Lemma all_digits_firstn (n : nat) (d : str) :
  all_digits d = true -> all_digits (firstn n d) = true.
Proof.
  unfold all_digits. revert n.
  induction d as [|c d IH]; intros [|n] H; simpl; try reflexivity.
  simpl in H. apply andb_true_iff in H as [-> H]. now apply IH.
Qed.

Lemma all_digits_zeros (n : nat) : all_digits (repeat chr_zero n) = true.
Proof. induction n as [|n IH]; simpl; [reflexivity|exact IH]. Qed.

Lemma fix6_digits (d : str) : all_digits d = true -> all_digits (fix6 d) = true.
Proof.
  intros H. unfold fix6. destruct (6 <? length d).
  - now apply all_digits_firstn.
  - destruct (length d <? 6); [|assumption].
    unfold all_digits. rewrite forallb_app. fold (all_digits d).
    rewrite H. apply all_digits_zeros.
Qed.

Lemma fix6_prefix (d : str) : firstn (length d) (fix6 d) = firstn 6 d.
Proof.
  unfold fix6. destruct (6 <? length d) eqn:E1.
  - apply Nat.ltb_lt in E1. apply firstn_all2.
    rewrite firstn_length_le; lia.
  - apply Nat.ltb_ge in E1. rewrite (firstn_all2 (n := 6) d) by lia.
    destruct (length d <? 6).
    + rewrite firstn_app, firstn_all, Nat.sub_diag. simpl. apply app_nil_r.
    + apply firstn_all.
Qed.

Lemma fix6_padding (d : str) :
  skipn (length d) (fix6 d) = repeat chr_zero (6 - length d).
Proof.
  unfold fix6. destruct (6 <? length d) eqn:E1.
  - apply Nat.ltb_lt in E1. replace (6 - length d) with 0 by lia.
    apply skipn_all2. rewrite firstn_length_le; lia.
  - apply Nat.ltb_ge in E1. destruct (length d <? 6) eqn:E2.
    + rewrite skipn_app, skipn_all, Nat.sub_diag. reflexivity.
    + apply Nat.ltb_ge in E2. replace (6 - length d) with 0 by lia.
      apply skipn_all.
Qed.

Lemma has_fraction_snoc (p : str) (c : ascii) :
  has_fraction p = false -> is_digit c = false ->
  has_fraction (p ++ [c]) = false.
Proof.
  intros Hp Hc. induction p as [|x p IH]; [reflexivity|].
  destruct p as [|y p'].
  - simpl. now rewrite Hc, andb_false_r.
  - cbn [has_fraction] in Hp. apply orb_false_iff in Hp as [H1 H2].
    change ((x :: y :: p') ++ [c]) with (x :: y :: (p' ++ [c])).
    cbn [has_fraction]. rewrite H1. exact (IH H2).
Qed.

Lemma has_fraction_app_offset (p t : str) (c : ascii) :
  has_fraction p = false -> is_digit c = false ->
  has_fraction (c :: t) = false ->
  has_fraction (p ++ c :: t) = false.
Proof.
  intros Hp Hc Ht. induction p as [|x p IH]; [assumption|].
  destruct p as [|y p'].
  - cbn [app has_fraction]. rewrite Hc, andb_false_r. exact Ht.
  - cbn [has_fraction] in Hp. apply orb_false_iff in Hp as [H1 H2].
    change ((x :: y :: p') ++ c :: t) with (x :: y :: (p' ++ c :: t)).
    cbn [has_fraction]. rewrite H1. exact (IH H2).
Qed.

Lemma endswith_snoc_nl (p : str) : endswith (p ++ [chr_nl]) chr_Z = false.
Proof. now rewrite endswith_app_last. Qed.

End NormalizerExtras.

(** X1: the tuple unpacking at line 37 never fails, and whenever the
    pattern matches the string handed to the parser has, in place of the
    matched run, a fractional run of exactly 6 digits: the first digits
    of the original run (at most 6, cut and not rounded), then only
    zeros.  When the pattern does not match the string is handed over
    with only a final "Z" replaced. *)
Theorem normalize_fraction_six (s : str) :
  match Re.match_groups (replace_z s) with
  | None => normalize s = Return (replace_z s)
  | Some (dt_part, tz_part) =>
      exists base digits frac e,
        dt_part = base ++ chr_dot :: digits /\
        replace_z s = dt_part ++ tz_part ++ e /\
        (e = [] \/ e = [chr_nl]) /\
        digits <> [] /\ all_digits digits = true /\
        normalize s = Return (base ++ chr_dot :: frac ++ tz_part) /\
        length frac = 6 /\ all_digits frac = true /\
        firstn (length digits) frac = firstn 6 digits /\
        skipn (length digits) frac = repeat chr_zero (6 - length digits)
  end.
Proof.
  rewrite normalize_replace_z.
  destruct (Re.match_groups (replace_z s)) as [[dt tz]|] eqn:E;
    [|reflexivity].
  apply ReFacts.match_groups_sound in E
    as (base & digits & sg & off & e & Hs & -> & -> & _ & Hd & Hdd & _ & _
        & _ & He).
  exists base, digits, (fix6 digits), e.
  split; [reflexivity|]. split.
  { rewrite Hs, <- app_assoc. reflexivity. }
  split; [exact He|]. split; [exact Hd|]. split; [exact Hdd|]. split.
  { rewrite rsplit1_last by now apply all_digits_no_dot.
    now rewrite ljust_slice_fix6. }
  split; [apply fix6_length|]. split; [now apply fix6_digits|].
  split; [apply fix6_prefix|apply fix6_padding].
Qed.

(** X2: a final line feed after a timestamp with a fractional run and an
    offset is dropped by the rewriting (the pattern's [$] matches before
    it); without a fractional run the line feed stays in the string
    handed to the parser. *)
Theorem normalize_final_newline (base digits off : str) (sg : ascii) :
  base <> [] -> no_newline base = true ->
  digits <> [] -> all_digits digits = true ->
  is_sign sg = true -> off <> [] -> offset_body off = true ->
  normalize (base ++ chr_dot :: digits ++ sg :: off ++ [chr_nl])
  = Return (base ++ chr_dot :: fix6 digits ++ sg :: off) /\
  (forall p, has_fraction p = false ->
     normalize (p ++ [chr_nl]) = Return (p ++ [chr_nl])).
Proof.
  intros Hb Hbn Hd Hdd Hsg Ho Hob. split.
  - apply (normalize_shape _ base digits off [chr_nl] sg); try assumption.
    + apply replace_z_other.
      replace (base ++ chr_dot :: digits ++ sg :: off ++ [chr_nl])
        with ((base ++ chr_dot :: digits ++ sg :: off) ++ [chr_nl]).
      * apply endswith_snoc_nl.
      * rewrite <- app_assoc. simpl. do 2 f_equal.
        rewrite <- app_assoc. reflexivity.
    + now right.
  - intros p Hp. apply normalize_unchanged.
    + apply endswith_snoc_nl.
    + apply has_fraction_frac_then_sign. now apply has_fraction_snoc.
Qed.

Lemma normalize_final_newline_witness :
  normalize (S' "2024-01-15T10:30:00.5+02:00" ++ [chr_nl])
  = Return (S' "2024-01-15T10:30:00.500000+02:00").
Proof.
  exact (proj1 (normalize_final_newline
                  (S' "2024-01-15T10:30:00") (S' "5") (S' "02:00") chr_plus
                  ltac:(discriminate) eq_refl ltac:(discriminate) eq_refl
                  eq_refl ltac:(discriminate) eq_refl)).
Defined.

(** X3: a timestamp that ends in "Z": with a fractional run right before
    the "Z" the parser receives the run on 6 digits followed by "+00:00";
    without any fractional run it receives the input with "Z" replaced by
    "+00:00" and nothing else changed. *)
Theorem normalize_z_suffix (base digits : str) :
  base <> [] -> no_newline base = true ->
  digits <> [] -> all_digits digits = true ->
  normalize (base ++ chr_dot :: digits ++ [chr_Z])
  = Return (base ++ chr_dot :: fix6 digits ++ S' "+00:00") /\
  (has_fraction base = false ->
   normalize (base ++ [chr_Z]) = Return (base ++ S' "+00:00")).
Proof.
  intros Hb Hbn Hd Hdd. split.
  - assert (Heq : replace_z (base ++ chr_dot :: digits ++ [chr_Z])
                  = base ++ chr_dot :: digits ++ chr_plus :: S' "00:00" ++ []).
    { replace (base ++ chr_dot :: digits ++ [chr_Z])
        with ((base ++ chr_dot :: digits) ++ [chr_Z])
        by now rewrite <- app_assoc.
      rewrite replace_z_suffix, <- app_assoc. reflexivity. }
    exact (normalize_shape _ base digits (S' "00:00") [] chr_plus Heq
             Hb Hbn Hd Hdd eq_refl ltac:(discriminate) eq_refl
             (or_introl eq_refl)).
  - intros Hf. rewrite normalize_replace_z, replace_z_suffix.
    rewrite match_groups_needs_sign; [reflexivity|].
    apply has_fraction_frac_then_sign.
    now apply has_fraction_app_offset.
Qed.

Lemma normalize_z_suffix_witness :
  normalize (S' "2024-01-15T10:30:00.123Z")
  = Return (S' "2024-01-15T10:30:00.123000+00:00") /\
  normalize (S' "2024-01-15T10:30:00Z")
  = Return (S' "2024-01-15T10:30:00+00:00").
Proof.
  destruct (normalize_z_suffix (S' "2024-01-15T10:30:00") (S' "123")
              ltac:(discriminate) eq_refl ltac:(discriminate) eq_refl)
    as [H1 H2].
  split; [exact H1|exact (H2 eq_refl)].
Defined.

(** A signed offset found in a string that ends in "+00:00" ends in
    "+00:00" itself. *)
Lemma offset_of_utc_suffix (p a off e : str) (sg : ascii) :
  p ++ S' "+00:00" = a ++ sg :: off ++ e ->
  is_sign sg = true -> e = [] \/ e = [chr_nl] ->
  exists l, sg :: off = l ++ S' "+00:00".
Proof.
  intros H Hsg He.
  assert (Hnil : forall l x, x ++ e = l ++ S' "+00:00" -> e = []).
  { intros l x Hx. destruct He as [->| ->]; [reflexivity|exfalso].
    change (S' "+00:00") with (S' "+00:0" ++ [chr_zero]) in Hx.
    rewrite app_assoc in Hx. apply app_inj_tail in Hx as [_ Hx].
    discriminate. }
  apply app_eq_app in H as [l [[_ H]|[_ H]]].
  - assert (He' := Hnil l (sg :: off) H). subst e.
    exists l. now rewrite app_nil_r in H.
  - destruct l as [|c l].
    + simpl in H.
      assert (He' := Hnil [] (sg :: off) (eq_sym H)). subst e.
      exists []. now rewrite app_nil_r in H.
    + exfalso. injection H as _ H.
      assert (Hin : In sg (l ++ sg :: off ++ e)) by apply in_elt.
      rewrite <- H in Hin. simpl in Hin.
      repeat destruct Hin as [Hin|Hin]; try (subst sg; discriminate).
      contradiction.
Qed.

(** X4: whatever precedes it, a final "Z" reaches the parser as the
    offset "+00:00": the string handed to the final parse step ends in
    "+00:00". *)
Theorem normalize_z_is_utc (p : str) :
  exists q, normalize (p ++ [chr_Z]) = Return (q ++ S' "+00:00").
Proof.
  destruct (normalize_cases (p ++ [chr_Z]))
    as [H|(base & digits & sg & off & e & Hs & _ & _ & _ & Hsg & _ & He & Hn)].
  - exists p. now rewrite H, replace_z_suffix.
  - rewrite replace_z_suffix in Hs.
    destruct (offset_of_utc_suffix p (base ++ chr_dot :: digits) off e sg)
      as [l Hl]; try assumption.
    + rewrite Hs, <- app_assoc. reflexivity.
    + exists (base ++ chr_dot :: fix6 digits ++ l).
      rewrite Hn, Hl, <- app_assoc. simpl. now rewrite <- app_assoc.
Qed.

(** ** Which outcomes the flows have *)

Lemma only_raises_bind {A B} (allowed : exn -> bool)
    (m : outcome A) (f : A -> outcome B) :
  only_raises allowed m -> (forall a, only_raises allowed (f a)) ->
  only_raises allowed (x <- m ;; f x).
Proof. destruct m; simpl; auto. Qed.

Lemma only_raises_weaken {A} (a b : exn -> bool) (m : outcome A) :
  (forall e, a e = true -> b e = true) ->
  only_raises a m -> only_raises b m.
Proof. intros H. destruct m; simpl; auto. Qed.

Lemma only_raises_for_each {A B} (allowed : exn -> bool)
    (f : A -> outcome B) (l : list A) :
  (forall a, only_raises allowed (f a)) ->
  only_raises allowed (for_each f l).
Proof.
  intros Hf. induction l as [|x l IH]; simpl; [exact I|].
  apply only_raises_bind; [apply Hf|]. intros y.
  apply only_raises_bind; [exact IH|]. intros ys. exact I.
Qed.

Lemma only_raises_py_get (v : json) (key : str) (default : json) :
  only_raises is_AttributeError (py_get v key default).
Proof.
  destruct v; simpl; try reflexivity. now destruct (lookup key fields).
Qed.

Lemma only_raises_py_iter (v : json) :
  only_raises is_type_mismatch (py_iter v).
Proof. destruct v; simpl; auto. Qed.

Lemma attribute_is_mismatch (e : exn) :
  is_AttributeError e = true -> is_type_mismatch e = true.
Proof. now destruct e. Qed.

Lemma mismatch_is_shape (e : exn) :
  is_type_mismatch e = true -> is_shape_error e = true.
Proof. now destruct e. Qed.

Lemma shape_is_history (e : exn) :
  is_shape_error e = true -> is_history_decode_error e = true.
Proof. now destruct e. Qed.

Lemma get_mismatch (v : json) (key : str) (default : json) :
  only_raises is_type_mismatch (py_get v key default).
Proof.
  eapply only_raises_weaken;
    [apply attribute_is_mismatch|apply only_raises_py_get].
Qed.

Lemma get_history (v : json) (key : str) (default : json) :
  only_raises is_history_decode_error (py_get v key default).
Proof.
  eapply only_raises_weaken; [|apply get_mismatch].
  intros e H. now apply shape_is_history, mismatch_is_shape.
Qed.

Lemma iter_history (v : json) :
  only_raises is_history_decode_error (py_iter v).
Proof.
  eapply only_raises_weaken; [|apply only_raises_py_iter].
  intros e H. now apply shape_is_history, mismatch_is_shape.
Qed.

Ltac raises_step :=
  first
    [ apply only_raises_bind; [|intro]
    | apply get_mismatch
    | apply get_history
    | apply only_raises_py_iter
    | apply iter_history
    | exact I ].

Lemma only_raises_decode_chat_summary (v : json) :
  only_raises is_type_mismatch (decode_chat_summary v).
Proof. unfold decode_chat_summary. repeat raises_step. Qed.

Lemma only_raises_decode_details (v : json) :
  only_raises is_type_mismatch (decode_details v).
Proof.
  unfold decode_details. raises_step; [raises_step|].
  destruct (truthy a); [|exact I].
  raises_step; [|exact I]. unfold decode_details_object.
  raises_step; [raises_step|]. raises_step; [raises_step|].
  raises_step;
    [apply only_raises_for_each, only_raises_decode_chat_summary|].
  repeat raises_step.
Qed.

Lemma only_raises_decode_evaluation (v : json) :
  only_raises is_type_mismatch (decode_evaluation v).
Proof.
  unfold decode_evaluation.
  raises_step; [raises_step|]. raises_step; [raises_step|].
  raises_step; [apply only_raises_decode_details|].
  repeat raises_step.
Qed.

Lemma only_raises_decode_submit_data (v : json) :
  only_raises is_AttributeError (decode_submit_data v).
Proof.
  unfold decode_submit_data.
  apply only_raises_bind; [apply only_raises_py_get|intro].
  apply only_raises_bind; [apply only_raises_py_get|intro]. exact I.
Qed.

Lemma only_raises_reshape_chat (v : json) :
  only_raises is_type_mismatch (reshape_chat v).
Proof. unfold reshape_chat. repeat raises_step. Qed.

Section HistoryOutcomes.
Variable fromisoformat : str -> option datetime.
Variable stdout_encodes : str -> bool.

Lemma only_raises_parse (s : str) :
  only_raises is_history_decode_error (parse_iso_datetime fromisoformat s).
Proof.
  unfold parse_iso_datetime.
  destruct (normalize_returns s) as [s' ->]. simpl.
  now destruct (fromisoformat s').
Qed.

Lemma only_raises_parse_value (v : json) :
  only_raises is_history_decode_error
    (parse_iso_datetime_value fromisoformat v).
Proof. destruct v; simpl; try reflexivity. apply only_raises_parse. Qed.

Lemma only_raises_py_index_start (v : json) :
  only_raises is_history_decode_error (py_index v (S' "chatStartOn")).
Proof.
  destruct v; try reflexivity. unfold py_index.
  destruct (lookup (S' "chatStartOn") fields); [exact I|reflexivity].
Qed.

Lemma only_raises_py_index_ended (v : json) :
  only_raises is_history_decode_error (py_index v (S' "chatEndedOn")).
Proof.
  destruct v; try reflexivity. unfold py_index.
  destruct (lookup (S' "chatEndedOn") fields); [exact I|reflexivity].
Qed.

Lemma only_raises_decode_chat (v : json) :
  only_raises is_history_decode_error (decode_chat fromisoformat v).
Proof.
  unfold decode_chat.
  raises_step; [apply get_history|]. raises_step; [apply get_history|].
  raises_step; [apply get_history|].
  raises_step; [apply only_raises_py_index_start|].
  raises_step; [apply only_raises_parse_value|].
  raises_step; [apply only_raises_py_index_ended|].
  raises_step; [apply only_raises_parse_value|]. exact I.
Qed.

Lemma only_raises_decode_chat_history (v : json) :
  only_raises is_history_decode_error (decode_chat_history fromisoformat v).
Proof.
  unfold decode_chat_history.
  raises_step; [apply get_history|]. raises_step; [apply iter_history|].
  raises_step; [apply only_raises_for_each, only_raises_decode_chat|].
  raises_step; [apply get_history|]. exact I.
Qed.

Lemma only_raises_decode_last_submission (v : json) :
  only_raises is_history_decode_error
    (decode_last_submission fromisoformat stdout_encodes v).
Proof.
  unfold decode_last_submission.
  apply only_raises_bind; [apply get_history|].
  intros a. destruct (truthy a); [|exact I].
  pose proof (only_raises_parse_value a) as H.
  destruct (parse_iso_datetime_value fromisoformat a) as [dt|e|c];
    simpl in *; [exact I| |contradiction].
  unfold py_print.
  destruct e; simpl in *; try discriminate; try assumption;
    destruct (stdout_encodes _); simpl; reflexivity.
Qed.

Lemma only_raises_decode_submission_history (v : json) :
  only_raises is_history_decode_error
    (decode_submission_history fromisoformat stdout_encodes v).
Proof.
  unfold decode_submission_history.
  raises_step; [apply get_history|]. raises_step; [apply iter_history|].
  raises_step;
    [apply only_raises_for_each, only_raises_decode_chat_history|].
  raises_step; [apply only_raises_decode_last_submission|].
  raises_step; [apply get_history|]. raises_step; [apply get_history|].
  exact I.
Qed.

End HistoryOutcomes.

(** X5: whatever the exchange, the Historical Data Fetcher returns, exits
    with status 1, or lets through an AttributeError, a TypeError or the
    KeyError of a missing chatStartOn or chatEndedOn; no ValueError and
    no RequestException reaches the caller, and no other exit status
    occurs. *)
Theorem historical_data_outcomes
    (fromisoformat : str -> option datetime)
    (stdout_encodes : str -> bool) (x : http_exchange) :
  match get_submission_historical_data fromisoformat stdout_encodes x with
  | Return _ => True
  | Raise e =>
      e = AttributeError \/ e = TypeError \/
      e = KeyError (S' "chatStartOn") \/ e = KeyError (S' "chatEndedOn")
  | Exit c => c = 1%Z
  end.
Proof.
  destruct x as [msg|r]; [reflexivity|].
  unfold get_submission_historical_data, response_json. simpl.
  destruct (status_code r =? 200)%Z; [|reflexivity].
  destruct (json_body r) as [msg|v]; [reflexivity|]. simpl.
  pose proof (only_raises_decode_submission_history fromisoformat stdout_encodes v) as H.
  destruct (decode_submission_history fromisoformat stdout_encodes v) as [res|e|c];
    simpl in *; [exact I| |contradiction].
  destruct e as [|k| | |msg|msg|]; simpl in *; try discriminate;
    try reflexivity; auto.
  apply orb_true_iff in H as [H|H]; apply str_eqb_eq in H; subst; auto.
Qed.

(** X6: whatever the exchange, [evaluate_submission] never exits the
    process, and the only exceptions it lets through are the
    AttributeError and TypeError of a 200 body of the wrong shape. *)
Theorem evaluate_submission_outcomes (x : http_exchange) :
  match evaluate_submission x with
  | Return _ => True
  | Raise e => e = AttributeError \/ e = TypeError
  | Exit _ => False
  end.
Proof.
  destruct x as [msg|r]; [exact I|].
  unfold evaluate_submission, response_json. simpl.
  destruct (status_code r =? 200)%Z; [|exact I].
  destruct (json_body r) as [msg|v]; [exact I|]. simpl.
  pose proof (only_raises_decode_evaluation v) as H.
  destruct (decode_evaluation v) as [res|e|c];
    simpl in *; [exact I| |contradiction].
  destruct e; simpl in *; try discriminate; auto.
Qed.

(** X7: the decision table of [submit_data]: it returns exactly when the
    status is 200 and the body is a JSON object, with is_valid and
    error_text the values on the wire or their defaults, whatever else
    the object holds and whatever isValid says; a JSON body that is not
    an object raises AttributeError; every other exchange exits with
    status 1. *)
Theorem submit_data_table (x : http_exchange) :
  submit_data x =
  match x with
  | TransportFailure _ => Exit 1
  | Responds r =>
      if (status_code r =? 200)%Z then
        match json_body r with
        | NotJson _ => Exit 1
        | Json (JObj o) =>
            Return (mk_SubmitDataResponse
                      (field o (S' "isValid") (JBool false))
                      (field o (S' "errorText") (JStr [])))
        | Json _ => Raise AttributeError
        end
      else Exit 1
  end.
Proof.
  destruct x as [msg|r]; [reflexivity|].
  unfold submit_data, response_json. simpl.
  destruct (status_code r =? 200)%Z; [|reflexivity].
  destruct (json_body r) as [msg|v]; [reflexivity|]. simpl.
  destruct v; try reflexivity.
  unfold decode_submit_data. now rewrite !py_get_field.
Qed.

(** X8: for [evaluate_submission] a 200 response whose body is not JSON is
    a recoverable failure like a transport failure: the call returns the
    failure result with the decoder's message as error text. *)
Theorem evaluate_submission_not_json (r : response) (msg : str) :
  status_code r = 200%Z -> json_body r = NotJson msg ->
  evaluate_submission (Responds r) = Return (failed_evaluation msg).
Proof.
  intros Hs Hb. unfold evaluate_submission, response_json. simpl.
  now rewrite (status_200 r Hs), Hb.
Qed.

Lemma evaluate_submission_not_json_witness :
  evaluate_submission
    (Responds (mk_response 200 (S' "<html>") (NotJson (S' "Expecting value"))))
  = Return (failed_evaluation (S' "Expecting value")).
Proof.
  exact (evaluate_submission_not_json
           (mk_response 200 (S' "<html>") (NotJson (S' "Expecting value")))
           (S' "Expecting value") eq_refl eq_refl).
Defined.

(** X9: a list field that is present but null is not treated like a
    missing one: a null chatHistories, or a null chats in a history
    entry, makes the fetcher raise TypeError, and a null chatSummaries in
    a details object makes [evaluate_submission] raise TypeError. *)
Theorem null_list_field_raises
    (fromisoformat : str -> option datetime)
    (stdout_encodes : str -> bool)
    (r : response) (o : list (str * json)) :
  status_code r = 200%Z -> json_body r = Json (JObj o) ->
  (lookup (S' "chatHistories") o = Some JNull ->
   get_submission_historical_data fromisoformat stdout_encodes (Responds r)
   = Raise TypeError) /\
  (forall h rest,
     lookup (S' "chatHistories") o = Some (JArr (JObj h :: rest)) ->
     lookup (S' "chats") h = Some JNull ->
     get_submission_historical_data fromisoformat stdout_encodes (Responds r)
     = Raise TypeError) /\
  (forall d,
     lookup (S' "details") o = Some (JObj d) ->
     lookup (S' "chatSummaries") d = Some JNull ->
     evaluate_submission (Responds r) = Raise TypeError).
Proof.
  intros Hs Hb. split; [|split].
  - intros H. rewrite (historical_flow_200 fromisoformat stdout_encodes r (JObj o) Hs Hb).
    unfold decode_submission_history. rewrite py_get_field.
    unfold field. now rewrite H.
  - intros h rest H Hc.
    rewrite (historical_flow_200 fromisoformat stdout_encodes r (JObj o) Hs Hb).
    unfold decode_submission_history. rewrite py_get_field.
    unfold field. rewrite H. simpl.
    unfold decode_chat_history. rewrite py_get_field.
    unfold field. now rewrite Hc.
  - intros d H Hc. rewrite (evaluate_flow_200 r (JObj o) Hs Hb).
    rewrite decode_evaluation_obj. unfold decode_details.
    rewrite py_get_field, bind_Return. unfold field at 1 2. rewrite H.
    assert (Ht : truthy (JObj d) = true)
      by (destruct d; [discriminate|reflexivity]).
    rewrite Ht, decode_details_object_obj.
    unfold field at 1. now rewrite Hc.
Qed.

Lemma null_list_field_raises_witness :
  get_submission_historical_data IsoFormat.fromisoformat utf8_stdout
    (Responds (ok_response (JObj [(S' "chatHistories", JNull)])))
  = Raise TypeError.
Proof.
  exact (proj1 (null_list_field_raises IsoFormat.fromisoformat utf8_stdout
                  (ok_response (JObj [(S' "chatHistories", JNull)]))
                  [(S' "chatHistories", JNull)] eq_refl eq_refl) eq_refl).
Defined.

(** ** Order of the decoded lists, and values of the wrong type *)

Lemma for_each_Forall2 {A B} (f : A -> outcome B) (l : list A) (ys : list B) :
  for_each f l = Return ys <-> Forall2 (fun x y => f x = Return y) l ys.
Proof.
  revert ys. induction l as [|x l IH]; intros ys; simpl.
  - split.
    + intros H. injection H as <-. constructor.
    + intros H. inversion H. reflexivity.
  - destruct (f x) as [y|e|c] eqn:Ex; simpl.
    + destruct (for_each f l) as [zs|e|c]; simpl.
      * split.
        -- intros H. injection H as <-. constructor; [assumption|].
           now apply IH.
        -- intros H. inversion H as [|? y' ? zs' Hy Hzs]; subst.
           rewrite Ex in Hy. injection Hy as <-.
           apply IH in Hzs. now injection Hzs as <-.
      * split; [discriminate|].
        intros H. inversion H as [|? y' ? zs' Hy Hzs]; subst.
        apply IH in Hzs. discriminate.
      * split; [discriminate|].
        intros H. inversion H as [|? y' ? zs' Hy Hzs]; subst.
        apply IH in Hzs. discriminate.
    + split; [discriminate|].
      intros H. inversion H as [|? y' ? zs' Hy Hzs]; subst.
      rewrite Ex in Hy. discriminate.
    + split; [discriminate|].
      intros H. inversion H as [|? y' ? zs' Hy Hzs]; subst.
      rewrite Ex in Hy. discriminate.
Qed.

(** X10: the result of the fetcher keeps the order of the wire: its
    chat_histories has one entry per element of chatHistories, the i-th
    decoded from the i-th, and the chat_list of an entry likewise follows
    its chats array. *)
Theorem historical_data_keeps_order
    (fromisoformat : str -> option datetime)
    (stdout_encodes : str -> bool)
    (r : response) (o : list (str * json)) (l : list json)
    (res : SubmissionHistory) :
  status_code r = 200%Z -> json_body r = Json (JObj o) ->
  lookup (S' "chatHistories") o = Some (JArr l) ->
  get_submission_historical_data fromisoformat stdout_encodes (Responds r) = Return res ->
  Forall2 (fun entry h => decode_chat_history fromisoformat entry = Return h)
    l (chat_histories res) /\
  length (chat_histories res) = length l /\
  (forall h chats hist,
     decode_chat_history fromisoformat (JObj h) = Return hist ->
     lookup (S' "chats") h = Some (JArr chats) ->
     Forall2 (fun chat c => decode_chat fromisoformat chat = Return c)
       chats (chat_list hist)).
Proof.
  intros Hs Hb Hl Hres.
  rewrite (historical_flow_200 fromisoformat stdout_encodes r (JObj o) Hs Hb) in Hres.
  apply try_except_Return in Hres; [|discriminate].
  apply try_except_Return in Hres; [|discriminate].
  rewrite decode_submission_history_obj in Hres.
  unfold chat_histories_of in Hres. unfold field at 1 in Hres.
  rewrite Hl in Hres. cbn [py_iter bind] in Hres.
  destruct (for_each (decode_chat_history fromisoformat) l) as [chs|e|c]
    eqn:Ech; cbn [bind] in Hres; try discriminate.
  destruct (decode_last_submission fromisoformat stdout_encodes (JObj o)) as [ls|e|c];
    cbn [bind] in Hres; try discriminate.
  injection Hres as <-. cbn [chat_histories].
  apply for_each_Forall2 in Ech. split; [assumption|]. split.
  - symmetry. exact (Forall2_length Ech).
  - intros h chats hist Hd Hc. unfold decode_chat_history in Hd.
    rewrite !py_get_field in Hd. unfold field at 1 in Hd.
    rewrite Hc in Hd. cbn [py_iter bind] in Hd.
    destruct (for_each (decode_chat fromisoformat) chats) as [cs|e|c]
      eqn:Ecs; cbn [bind] in Hd; try discriminate.
    injection Hd as <-. cbn [chat_list]. now apply for_each_Forall2.
Qed.

Lemma historical_data_keeps_order_witness :
  exists res,
    get_submission_historical_data IsoFormat.fromisoformat utf8_stdout
      (Responds (ok_response
         (JObj [(S' "chatHistories",
                 JArr [JObj [(S' "sourceChatId", JStr (S' "a"))];
                       JObj [(S' "sourceChatId", JStr (S' "b"))]])])))
    = Return res /\
    length (chat_histories res) = 2.
Proof.
  eexists. split; [reflexivity|].
  match goal with
  | |- length (chat_histories ?res) = _ =>
      exact (proj1 (proj2 (historical_data_keeps_order
               IsoFormat.fromisoformat utf8_stdout
               (ok_response
                  (JObj [(S' "chatHistories",
                          JArr [JObj [(S' "sourceChatId", JStr (S' "a"))];
                                JObj [(S' "sourceChatId", JStr (S' "b"))]])]))
               [(S' "chatHistories",
                 JArr [JObj [(S' "sourceChatId", JStr (S' "a"))];
                       JObj [(S' "sourceChatId", JStr (S' "b"))]])]
               [JObj [(S' "sourceChatId", JStr (S' "a"))];
                JObj [(S' "sourceChatId", JStr (S' "b"))]]
               res eq_refl eq_refl eq_refl eq_refl)))
  end.
Defined.

(** X11: a lastSubmission that is present, truthy and not a string (a
    number, true, a list, an object) is not covered by the graceful
    degradation: when the chat histories decode, the fetcher raises
    AttributeError to its caller. *)
Theorem last_submission_wrong_type_raises
    (fromisoformat : str -> option datetime)
    (stdout_encodes : str -> bool)
    (r : response) (o : list (str * json)) (v : json)
    (chs : list ChatHistory) :
  status_code r = 200%Z -> json_body r = Json (JObj o) ->
  lookup (S' "lastSubmission") o = Some v ->
  truthy v = true -> is_string v = false ->
  chat_histories_of fromisoformat o = Return chs ->
  get_submission_historical_data fromisoformat stdout_encodes (Responds r)
  = Raise AttributeError.
Proof.
  intros Hs Hb Hl Ht Hv Hc.
  rewrite (historical_flow_200 fromisoformat stdout_encodes r (JObj o) Hs Hb).
  rewrite decode_submission_history_obj, Hc. simpl.
  unfold decode_last_submission. rewrite py_get_field.
  unfold field. rewrite Hl. simpl. rewrite Ht.
  destruct v; try discriminate; reflexivity.
Qed.

Lemma last_submission_wrong_type_raises_witness :
  get_submission_historical_data IsoFormat.fromisoformat utf8_stdout
    (Responds (ok_response (JObj [(S' "lastSubmission", JInt 1705314600)])))
  = Raise AttributeError.
Proof.
  exact (last_submission_wrong_type_raises IsoFormat.fromisoformat utf8_stdout
           (ok_response (JObj [(S' "lastSubmission", JInt 1705314600)]))
           [(S' "lastSubmission", JInt 1705314600)] (JInt 1705314600) []
           eq_refl eq_refl eq_refl eq_refl eq_refl eq_refl).
Defined.

(** ** The request of the evaluate flow *)

Section EvaluateCallFacts.
Variable get_validation_api_url : str -> str.
Variables proof_token source_value submitted_by : json.
Variables source_id submitted_on : str.
Variable post : request -> http_exchange.


Lemma for_each_reshape_objects (l : list json) :
  forallb is_object l = true ->
  for_each reshape_chat l = Return (map reshaped l).
Proof.
  induction l as [|c l IH]; [reflexivity|].
  cbn [forallb]. intros H. apply andb_true_iff in H as [Hc Hl].
  cbn [for_each map]. rewrite (IH Hl).
  destruct c; try discriminate.
  unfold reshape_chat. now rewrite !py_get_field.
Qed.

Lemma only_raises_build (raw : json) : only_raises is_type_mismatch
    (build_evaluate_payload proof_token source_value submitted_by
    source_id submitted_on raw).
Proof.
  unfold build_evaluate_payload.
  raises_step; [raises_step|]. raises_step; [raises_step|].
  raises_step; [raises_step|].
  raises_step; [apply only_raises_for_each, only_raises_reshape_chat|].
  exact I.
Qed.

(** X12: the payload of the evaluate request.  For a raw input object
    whose chats are objects, Chats has one {ChatId, Contents} pair per raw
    chat, in the same order, with ChatId null when chat_id is missing and
    Contents [] when contents is missing; SubmissionToken is the raw
    submission_token or the empty string; without a chats key Chats is
    the empty list. *)
Theorem evaluate_payload_shape (o : list (str * json)) (l : list json) :
  field o (S' "chats") (JArr []) = JArr l ->
  forallb is_object l = true ->
  build_evaluate_payload proof_token source_value submitted_by
    source_id submitted_on (JObj o) =
  Return (JObj [(S' "ProofToken", proof_token);
                (S' "DataSource", source_value);
                (S' "SourceId", JStr source_id);
                (S' "SubmittedBy", submitted_by);
                (S' "SubmittedOn", JStr submitted_on);
                (S' "SubmissionToken",
                 field o (S' "submission_token") (JStr []));
                (S' "Chats", JArr (map reshaped l))]) /\
  length (map reshaped l) = length l /\
  (lookup (S' "chats") o = None -> l = []).
Proof.
  intros Hl Hobj. split; [|split].
  - unfold build_evaluate_payload. rewrite !py_get_field, Hl.
    cbn [bind py_iter]. now rewrite (for_each_reshape_objects l Hobj).
  - apply length_map.
  - intros Hn. unfold field in Hl. rewrite Hn in Hl. now injection Hl as <-.
Qed.

(** X13: the whole evaluate call.  The payload is built first: a raw
    input of the wrong shape (not an object, chats that cannot be
    iterated, a chat that is not an object) raises AttributeError or
    TypeError to the caller whatever the network would do, and is not
    turned into a failure result; once the payload is built the call is
    [evaluate_submission] on the exchange for that request, sent to the
    evaluate endpoint. *)
Theorem evaluate_submission_call_split (raw : json) :
  evaluate_submission_call get_validation_api_url proof_token
    source_value submitted_by source_id submitted_on post raw =
  (payload <- build_evaluate_payload proof_token source_value submitted_by
    source_id submitted_on raw ;;
   evaluate_submission
     (post (mk_request
              (get_validation_api_url (S' "api/submissions/evaluate"))
              payload))) /\
  only_raises is_type_mismatch
    (build_evaluate_payload proof_token source_value submitted_by
    source_id submitted_on raw) /\
  (is_object raw = false ->
   evaluate_submission_call get_validation_api_url proof_token
    source_value submitted_by source_id submitted_on post raw
   = Raise AttributeError).
Proof.
  split; [|split].
  - unfold evaluate_submission_call.
    pose proof (only_raises_build raw) as H.
    destruct (build_evaluate_payload proof_token source_value submitted_by
                source_id submitted_on raw) as [payload|e|c]; simpl in *.
    + reflexivity.
    + destruct e; simpl in *; try discriminate; reflexivity.
    + contradiction.
  - apply only_raises_build.
  - intros H. unfold evaluate_submission_call, build_evaluate_payload.
    destruct raw; try discriminate; reflexivity.
Qed.

End EvaluateCallFacts.

Lemma evaluate_payload_shape_witness :
  build_evaluate_payload (JStr (S' "tok")) (JInt 1) (JStr (S' "me"))
    (S' "42") (S' "2024-01-15T10:30:00")
    (JObj [(S' "chats",
            JArr [JObj [(S' "chat_id", JInt 7)];
                  JObj [(S' "contents", JArr [JStr (S' "hi")])]])])
  = Return
      (JObj [(S' "ProofToken", JStr (S' "tok"));
             (S' "DataSource", JInt 1);
             (S' "SourceId", JStr (S' "42"));
             (S' "SubmittedBy", JStr (S' "me"));
             (S' "SubmittedOn", JStr (S' "2024-01-15T10:30:00"));
             (S' "SubmissionToken", JStr []);
             (S' "Chats",
              JArr [JObj [(S' "ChatId", JInt 7); (S' "Contents", JArr [])];
                    JObj [(S' "ChatId", JNull);
                          (S' "Contents", JArr [JStr (S' "hi")])]])]).
Proof.
  exact (proj1 (evaluate_payload_shape
                  (JStr (S' "tok")) (JInt 1) (JStr (S' "me"))
                  (S' "42") (S' "2024-01-15T10:30:00")
                  [(S' "chats",
                    JArr [JObj [(S' "chat_id", JInt 7)];
                          JObj [(S' "contents", JArr [JStr (S' "hi")])]])]
                  [JObj [(S' "chat_id", JInt 7)];
                   JObj [(S' "contents", JArr [JStr (S' "hi")])]]
                  eq_refl eq_refl)).
Defined.

Lemma evaluate_submission_call_split_witness :
  evaluate_submission_call (fun p => S' "https://api/" ++ p)
    JNull JNull JNull [] [] (fun _ => TransportFailure (S' "down"))
    (JArr [])
  = Raise AttributeError.
Proof.
  exact (proj2 (proj2 (evaluate_submission_call_split
                         (fun p => S' "https://api/" ++ p)
                         JNull JNull JNull [] []
                         (fun _ => TransportFailure (S' "down"))
                         (JArr []))) eq_refl).
Defined.

(** ** Well-shaped responses, and where a bad timestamp sits *)

Lemma for_each_summaries (l : list json) :
  forallb is_object l = true ->
  for_each decode_chat_summary l = Return (map summary_of l).
Proof.
  induction l as [|c l IH]; [reflexivity|].
  cbn [forallb]. intros H. apply andb_true_iff in H as [Hc Hl].
  cbn [for_each map]. rewrite (IH Hl).
  destruct c; try discriminate.
  unfold decode_chat_summary. now rewrite !py_get_field.
Qed.

(** X14: a 200 response of the evaluate call whose body is an object,
    whose details is an object and whose chatSummaries (if any) is a list
    of objects always decodes: the result carries the wire values or
    defaults, and chat_summaries has one summary per element, in order. *)
Theorem evaluate_well_shaped_returns
    (r : response) (o d : list (str * json)) (l : list json) :
  status_code r = 200%Z -> json_body r = Json (JObj o) ->
  lookup (S' "details") o = Some (JObj d) -> d <> [] ->
  field d (S' "chatSummaries") (JArr []) = JArr l ->
  forallb is_object l = true ->
  evaluate_submission (Responds r) =
  Return (mk_EvaluateSubmissionResponse
            (field o (S' "isValid") (JBool false))
            (field o (S' "errorText") (JStr []))
            (field o (S' "quality") (JFloat float_zero))
            (field o (S' "uniqueness") (JFloat float_zero))
            (field o (S' "score") (JFloat float_zero))
            (Some (mk_EvaluationDetails
                     (field d (S' "totalMessages") (JInt 0))
                     (field d (S' "uniqueMessages") (JInt 0))
                     (field d (S' "llmReasoning") JNull)
                     (map summary_of l)))).
Proof.
  intros Hs Hb Hd Hne Hl Hobj.
  apply (evaluate_flow_result r o _ Hs Hb).
  unfold decode_details. rewrite py_get_field, bind_Return.
  unfold field at 1 2. rewrite Hd.
  assert (Ht : truthy (JObj d) = true) by (destruct d; [congruence|reflexivity]).
  rewrite Ht, decode_details_object_obj, Hl.
  cbn [py_iter bind]. now rewrite (for_each_summaries l Hobj).
Qed.

Lemma evaluate_well_shaped_returns_witness :
  exists res det,
    evaluate_submission
      (Responds (ok_response
         (JObj [(S' "isValid", JBool true);
                (S' "details",
                 JObj [(S' "totalMessages", JInt 3);
                       (S' "chatSummaries",
                        JArr [JObj [(S' "messageCount", JInt 3)]])])])))
    = Return res /\ details res = Some det /\
    chat_summaries det
    = [mk_ChatEvaluationSummary (JStr []) (JInt 3)
         (JFloat float_zero) (JFloat float_zero)].
Proof.
  eexists. eexists. split; [|split].
  - exact (evaluate_well_shaped_returns
             (ok_response
                (JObj [(S' "isValid", JBool true);
                       (S' "details",
                        JObj [(S' "totalMessages", JInt 3);
                              (S' "chatSummaries",
                               JArr [JObj [(S' "messageCount", JInt 3)]])])]))
             [(S' "isValid", JBool true);
              (S' "details",
               JObj [(S' "totalMessages", JInt 3);
                     (S' "chatSummaries",
                      JArr [JObj [(S' "messageCount", JInt 3)]])])]
             [(S' "totalMessages", JInt 3);
              (S' "chatSummaries",
               JArr [JObj [(S' "messageCount", JInt 3)]])]
             [JObj [(S' "messageCount", JInt 3)]]
             eq_refl eq_refl eq_refl ltac:(discriminate) eq_refl eq_refl).
  - reflexivity.
  - reflexivity.
Defined.

Lemma for_each_first_failure {A B} (f : A -> outcome B)
    (before after : list A) (x : A) (ys : list B) (e : exn) :
  for_each f before = Return ys -> f x = Raise e ->
  for_each f (before ++ x :: after) = Raise e.
Proof.
  revert ys. induction before as [|a l IH]; intros ys Hb Hx; simpl.
  - now rewrite Hx.
  - simpl in Hb. destruct (f a) as [y| |]; simpl in *; try discriminate.
    destruct (for_each f l) as [zs| |] eqn:El; simpl in *; try discriminate.
    now rewrite (IH zs eq_refl Hx).
Qed.

(** X15: an unparsable chatStartOn is fatal wherever it sits: if the
    history entries before its entry and the chats before its chat
    decode, the fetcher exits with status 1; the entries and chats after
    it are not looked at. *)
Theorem unparsable_chat_start_exits
    (fromisoformat : str -> option datetime)
    (stdout_encodes : str -> bool)
    (r : response) (o h c : list (str * json))
    (hs_before hs_after cs_before cs_after : list json)
    (hists : list ChatHistory) (chats : list SubmissionChat) (s : str) :
  status_code r = 200%Z -> json_body r = Json (JObj o) ->
  lookup (S' "chatHistories") o
  = Some (JArr (hs_before ++ JObj h :: hs_after)) ->
  for_each (decode_chat_history fromisoformat) hs_before = Return hists ->
  lookup (S' "chats") h = Some (JArr (cs_before ++ JObj c :: cs_after)) ->
  for_each (decode_chat fromisoformat) cs_before = Return chats ->
  lookup (S' "chatStartOn") c = Some (JStr s) ->
  parse_iso_datetime fromisoformat s = Raise ValueError ->
  get_submission_historical_data fromisoformat stdout_encodes (Responds r) = Exit 1.
Proof.
  intros Hs Hb Hl Hh Hc Hcs Hst Hp.
  rewrite (historical_flow_200 fromisoformat stdout_encodes r (JObj o) Hs Hb).
  assert (Hchat : decode_chat fromisoformat (JObj c) = Raise ValueError).
  { unfold decode_chat. rewrite !py_get_field. unfold py_index.
    rewrite Hst. cbn [bind parse_iso_datetime_value]. now rewrite Hp. }
  assert (Hhist : decode_chat_history fromisoformat (JObj h)
                  = Raise ValueError).
  { unfold decode_chat_history. rewrite py_get_field. unfold field.
    rewrite Hc. cbn [bind py_iter].
    now rewrite (for_each_first_failure _ _ _ _ _ _ Hcs Hchat). }
  unfold decode_submission_history. rewrite py_get_field. unfold field.
  rewrite Hl. cbn [bind py_iter].
  now rewrite (for_each_first_failure _ _ _ _ _ _ Hh Hhist).
Qed.

Lemma unparsable_chat_start_exits_witness :
  get_submission_historical_data IsoFormat.fromisoformat utf8_stdout
    (Responds (ok_response
       (JObj [(S' "chatHistories",
               JArr [JObj [(S' "chats", JArr [])];
                     JObj [(S' "chats",
                            JArr [JObj [(S' "chatStartOn",
                                         JStr (S' "15/01/2024"))]])]])])))
  = Exit 1.
Proof.
  exact (unparsable_chat_start_exits IsoFormat.fromisoformat utf8_stdout
           (ok_response
              (JObj [(S' "chatHistories",
                      JArr [JObj [(S' "chats", JArr [])];
                            JObj [(S' "chats",
                                   JArr [JObj [(S' "chatStartOn",
                                                JStr (S' "15/01/2024"))]])]])]))
           [(S' "chatHistories",
             JArr [JObj [(S' "chats", JArr [])];
                   JObj [(S' "chats",
                          JArr [JObj [(S' "chatStartOn",
                                       JStr (S' "15/01/2024"))]])]])]
           [(S' "chats",
             JArr [JObj [(S' "chatStartOn", JStr (S' "15/01/2024"))]])]
           [(S' "chatStartOn", JStr (S' "15/01/2024"))]
           [JObj [(S' "chats", JArr [])]] [] [] []
           [mk_ChatHistory (JInt 0) []] [] (S' "15/01/2024")
           eq_refl eq_refl eq_refl eq_refl eq_refl eq_refl eq_refl eq_refl).
Defined.

(** X16: the diagnostic of line 95 is printed inside the inner [try]: when
    a non-empty lastSubmission string fails to parse and standard output
    cannot encode the diagnostic, [print] raises UnicodeEncodeError, the
    [except ValueError] of line 104 catches it and the fetcher exits with
    status 1 instead of returning last_submission None. *)
Theorem last_submission_unprintable_exits
    (fromisoformat : str -> option datetime)
    (stdout_encodes : str -> bool)
    (r : response) (o : list (str * json)) (s : str)
    (chs : list ChatHistory) :
  status_code r = 200%Z -> json_body r = Json (JObj o) ->
  lookup (S' "lastSubmission") o = Some (JStr s) -> s <> [] ->
  parse_iso_datetime fromisoformat s = Raise ValueError ->
  stdout_encodes (diagnostic s) = false ->
  chat_histories_of fromisoformat o = Return chs ->
  get_submission_historical_data fromisoformat stdout_encodes (Responds r)
  = Exit 1.
Proof.
  intros Hs Hb Hl Hne Hp He Hc.
  rewrite (historical_flow_200 fromisoformat stdout_encodes r (JObj o) Hs Hb).
  rewrite decode_submission_history_obj, Hc. cbn [bind].
  rewrite (decode_last_submission_string fromisoformat stdout_encodes
             o s Hl Hne).
  rewrite Hp. simpl. unfold py_print. now rewrite He.
Qed.

Lemma last_submission_unprintable_exits_witness :
  get_submission_historical_data IsoFormat.fromisoformat ascii_stdout
    (Responds (ok_response
       (JObj [(S' "lastSubmission", JStr ("233"%char :: S' "t"))])))
  = Exit 1.
Proof.
  exact (last_submission_unprintable_exits IsoFormat.fromisoformat
           ascii_stdout
           (ok_response
              (JObj [(S' "lastSubmission", JStr ("233"%char :: S' "t"))]))
           [(S' "lastSubmission", JStr ("233"%char :: S' "t"))]
           ("233"%char :: S' "t") []
           eq_refl eq_refl eq_refl ltac:(discriminate) eq_refl eq_refl
           eq_refl).
Defined.
